(** * ai-solutions-backend: a shallow embedding of [app.py]

    The Flask application is embedded as pure functions:
    - JSON request bodies and JWT payloads are values of [json], with the
      Python operators the handlers apply to them ([not x], [k in x],
      [x[k]], [x.get(k)], [1 <= x <= 5], [x != y]);
    - Python exceptions are values of [exn], and code that may raise lives
      in the [result] monad; [try ... except] is [try_except];
    - the three tables are finite maps from primary key to row, and the
      SQLAlchemy session is a unit of work that [commit] flushes and that
      [rollback] (or the end of the request) discards;
    - what the application delegates to libraries (PyJWT, the storage
      engine, [str(e)], [isoformat]) is a parameter of the [Service]
      section. *)

From Stdlib Require Import ZArith QArith String Ascii List Bool Lia.
From stdpp Require Import gmap strings pretty sorting.
Import ListNotations.

Local Open Scope Z_scope.
Local Open Scope string_scope.

(** ** Python values *)

(** A Python [float]: [json.loads] also reads the literals [NaN],
    [Infinity] and [-Infinity]; a finite float is the rational it denotes
    (Python compares [int] and [float] exactly). *)
Inductive pyfloat : Type :=
  | FNan
  | FInf (negative : bool)
  | FNum (q : Q).

(** What [request.get_json()] and [pyjwt.decode] return. [JObj] lists the
    items of a [dict]; a key is looked up at its first occurrence. *)
#[warnings="-register-all"]
Inductive json : Type :=
  | JNull
  | JBool (b : bool)
  | JInt (n : Z)
  | JFloat (x : pyfloat)
  | JStr (s : string)
  | JArr (items : list json)
  | JObj (members : list (string * json)).

(** Python exceptions that the application raises or catches.
    [HTTPException code description] is what [abort(code, description=...)]
    raises; [description = None] is werkzeug's default text for the code. *)
Inductive exn : Type :=
  | HTTPException (code : Z) (description : option string)
  | TypeError
  | AttributeError
  | KeyError (key : string)
  | ValueError
  | RuntimeError (message : string)
  | ExpiredSignatureError
  | InvalidTokenError (message : string)
  | SQLAlchemyError (message : string).

Inductive result (A : Type) : Type :=
  | Return (a : A)
  | Raise (e : exn).
Arguments Return {A} a.
Arguments Raise {A} e.

Definition bind {A B : Type} (m : result A) (k : A -> result B) : result B :=
  match m with
  | Return a => k a
  | Raise e => Raise e
  end.

Notation "'do' x <- m 'in' k" := (bind m (fun x => k))
  (at level 10, x name, m at level 100, k at level 200, only parsing).

Definition abort {A : Type} (code : Z) (description : string) : result A :=
  Raise (HTTPException code (Some description)).

(** [try: body  except <classes matched by handles> as e: handler e]. *)
Definition try_except {A : Type} (body : result A)
    (handles : exn -> bool) (handler : exn -> result A) : result A :=
  match body with
  | Return a => Return a
  | Raise e => if handles e then handler e else Raise e
  end.

(** ** Python operators on values *)

Definition float_truthy (x : pyfloat) : bool :=
  match x with
  | FNum q => negb (Qeq_bool q 0)
  | _ => true
  end.

(** [bool(v)]; [not v] is its negation. *)
Definition truthy (v : json) : bool :=
  match v with
  | JNull => false
  | JBool b => b
  | JInt n => negb (Z.eqb n 0)
  | JFloat x => float_truthy x
  | JStr s => negb (String.eqb s EmptyString)
  | JArr items => match items with [] => false | _ => true end
  | JObj members => match members with [] => false | _ => true end
  end.

Fixpoint dict_lookup (key : string) (members : list (string * json)) : option json :=
  match members with
  | [] => None
  | (k, v) :: rest => if String.eqb k key then Some v else dict_lookup key rest
  end.

Fixpoint str_contains (needle hay : string) : bool :=
  String.prefix needle hay ||
  match hay with
  | EmptyString => false
  | String _ rest => str_contains needle rest
  end.

Definition is_str (key : string) (v : json) : bool :=
  match v with
  | JStr s => String.eqb s key
  | _ => false
  end.

(** [key in v] for a string [key]. *)
Definition py_in (key : string) (v : json) : result bool :=
  match v with
  | JObj members =>
      Return (match dict_lookup key members with Some _ => true | None => false end)
  | JArr items => Return (existsb (is_str key) items)
  | JStr s => Return (str_contains key s)
  | _ => Raise TypeError
  end.

(** [v[key]] for a string [key]. *)
Definition py_getitem (v : json) (key : string) : result json :=
  match v with
  | JObj members =>
      match dict_lookup key members with
      | Some x => Return x
      | None => Raise (KeyError key)
      end
  | _ => Raise TypeError
  end.

(** [v.get(key)]. *)
Definition py_get (v : json) (key : string) : result json :=
  match v with
  | JObj members => Return (default JNull (dict_lookup key members))
  | _ => Raise AttributeError
  end.

(** The numeric reading of a value in a comparison with an [int]. *)
Definition as_number (v : json) : option pyfloat :=
  match v with
  | JBool b => Some (FNum (inject_Z (if b then 1 else 0)))
  | JInt n => Some (FNum (inject_Z n))
  | JFloat x => Some x
  | _ => None
  end.

Definition float_le (x y : pyfloat) : bool :=
  match x, y with
  | FNan, _ | _, FNan => false
  | FInf true, _ => true
  | _, FInf false => true
  | FInf false, _ => false
  | _, FInf true => false
  | FNum p, FNum q => Qle_bool p q
  end.

(** [a <= v] and [v <= b] for an [int] literal on one side. *)
Definition int_le_py (a : Z) (v : json) : result bool :=
  match as_number v with
  | Some x => Return (float_le (FNum (inject_Z a)) x)
  | None => Raise TypeError
  end.

Definition py_le_int (v : json) (b : Z) : result bool :=
  match as_number v with
  | Some x => Return (float_le x (FNum (inject_Z b)))
  | None => Raise TypeError
  end.

(** [lo <= v <= hi], which Python evaluates as [lo <= v and v <= hi]. *)
Definition chained_le (lo : Z) (v : json) (hi : Z) : result bool :=
  do b <- int_le_py lo v in
  if b then py_le_int v hi else Return false.

(** [v != o] where [o] is what [os.getenv] returned. *)
Definition py_ne_getenv (v : json) (o : option string) : bool :=
  match v, o with
  | JNull, None => false
  | JStr s, Some t => negb (String.eqb s t)
  | _, _ => true
  end.

(** ** Strings: [str.split()], [str.lower()], [str.join] *)

(** Header values reach the application decoded as latin-1, one character
    per byte; these are the code points below 256 that [str.isspace]
    accepts. *)
Definition is_space (c : ascii) : bool :=
  let n := nat_of_ascii c in
  ((9 <=? n) && (n <=? 13) || (28 <=? n) && (n <=? 32)
   || (n =? 133) || (n =? 160))%nat.

Fixpoint split_go (cur : string) (s : string) : list string :=
  match s with
  | EmptyString => match cur with EmptyString => [] | _ => [cur] end
  | String c rest =>
      if is_space c
      then match cur with
           | EmptyString => split_go EmptyString rest
           | _ => cur :: split_go EmptyString rest
           end
      else split_go (cur ++ String c EmptyString) rest
  end.

(** [s.split()] with no argument: maximal runs of non-space characters. *)
Definition py_split (s : string) : list string := split_go EmptyString s.

Definition lower_char (c : ascii) : ascii :=
  let n := nat_of_ascii c in
  if ((65 <=? n) && (n <=? 90)
      || (192 <=? n) && (n <=? 222) && negb (n =? 215))%nat
  then ascii_of_nat (n + 32) else c.

Fixpoint lower (s : string) : string :=
  match s with
  | EmptyString => EmptyString
  | String c rest => String (lower_char c) (lower rest)
  end.

(** [sep.join(parts)]. *)
Definition join (sep : string) (parts : list string) : string :=
  String.concat sep parts.

(** ** HTTP responses and the error handler *)

(** [jsonify(body), status]. *)
Record response : Type := Response { status : Z; body : json }.

(** [e.name] of the werkzeug exception class for a status code. *)
Definition http_name (code : Z) : string :=
  match code with
  | 400 => "Bad Request"
  | 401 => "Unauthorized"
  | 403 => "Forbidden"
  | 404 => "Not Found"
  | 500 => "Internal Server Error"
  | _ => "Unknown Error"
  end.

(** ** The models *)

Module Inquiry.
Record t : Type := Build {
  id : Z;
  name : json;
  email : json;
  phone : json;
  company : json;
  country : json;
  job_title : json;
  job_details : json;
  timestamp : Z
}.
Definition set_name (v : json) (r : t) : t :=
  Build (id r) v (email r) (phone r) (company r) (country r)
        (job_title r) (job_details r) (timestamp r).
Definition set_email (v : json) (r : t) : t :=
  Build (id r) (name r) v (phone r) (company r) (country r)
        (job_title r) (job_details r) (timestamp r).
Definition set_phone (v : json) (r : t) : t :=
  Build (id r) (name r) (email r) v (company r) (country r)
        (job_title r) (job_details r) (timestamp r).
Definition set_company (v : json) (r : t) : t :=
  Build (id r) (name r) (email r) (phone r) v (country r)
        (job_title r) (job_details r) (timestamp r).
Definition set_country (v : json) (r : t) : t :=
  Build (id r) (name r) (email r) (phone r) (company r) v
        (job_title r) (job_details r) (timestamp r).
Definition set_job_title (v : json) (r : t) : t :=
  Build (id r) (name r) (email r) (phone r) (company r) (country r)
        v (job_details r) (timestamp r).
Definition set_job_details (v : json) (r : t) : t :=
  Build (id r) (name r) (email r) (phone r) (company r) (country r)
        (job_title r) v (timestamp r).
End Inquiry.

Module Review.
Record t : Type := Build {
  id : Z;
  name : json;
  company : json;
  review : json;
  rating : json;
  timestamp : Z
}.
Definition set_name (v : json) (r : t) : t :=
  Build (id r) v (company r) (review r) (rating r) (timestamp r).
Definition set_company (v : json) (r : t) : t :=
  Build (id r) (name r) v (review r) (rating r) (timestamp r).
Definition set_review (v : json) (r : t) : t :=
  Build (id r) (name r) (company r) v (rating r) (timestamp r).
Definition set_rating (v : json) (r : t) : t :=
  Build (id r) (name r) (company r) (review r) v (timestamp r).
End Review.

Module Newsletter.
Record t : Type := Build {
  id : Z;
  name : json;
  email : json;
  timestamp : Z
}.
Definition set_name (v : json) (r : t) : t :=
  Build (id r) v (email r) (timestamp r).
Definition set_email (v : json) (r : t) : t :=
  Build (id r) (name r) v (timestamp r).
End Newsletter.

(** The committed content of the three tables, by primary key. *)
Record database : Type := Database {
  inquiries : gmap Z Inquiry.t;
  reviews : gmap Z Review.t;
  newsletters : gmap Z Newsletter.t
}.

Definition with_inquiries (m : gmap Z Inquiry.t) (db : database) : database :=
  Database m (reviews db) (newsletters db).
Definition with_reviews (m : gmap Z Review.t) (db : database) : database :=
  Database (inquiries db) m (newsletters db).
Definition with_newsletters (m : gmap Z Newsletter.t) (db : database) : database :=
  Database (inquiries db) (reviews db) m.

(** [Model.query.get_or_404(ident)]. *)
Definition get_or_404 {R : Type} (table : gmap Z R) (ident : Z) : result R :=
  match table !! ident with
  | Some r => Return r
  | None => Raise (HTTPException 404 None)
  end.

(** ** Startup *)

Definition required_vars : list string :=
  ["SECRET_KEY"; "DATABASE_URL"; "ADMIN_PASSWORD"].

(** [not os.getenv(var)]. *)
Definition getenv_falsy (environ : gmap string string) (var : string) : bool :=
  match environ !! var with
  | None => true
  | Some s => String.eqb s EmptyString
  end.

Definition missing_vars (environ : gmap string string) : list string :=
  List.filter (getenv_falsy environ) required_vars.

(** The module-level check that runs before the app object is created. *)
Definition startup (environ : gmap string string) : result unit :=
  match missing_vars environ with
  | [] => Return tt
  | missing =>
      Raise (RuntimeError
               ("Missing required environment variables: " ++ join ", " missing))
  end.

(** ** Request helpers *)

(** [[field for field in fields if field not in data]]. *)
Fixpoint fields_not_in (fields : list string) (data : json) : result (list string) :=
  match fields with
  | [] => Return []
  | field :: rest =>
      do present <- py_in field data in
      do others <- fields_not_in rest data in
      Return (if present then others else field :: others)
  end.

(** ["f1" not in data or "f2" not in data or ...], left to right. *)
Fixpoint any_not_in (fields : list string) (data : json) : result bool :=
  match fields with
  | [] => Return false
  | field :: rest =>
      do present <- py_in field data in
      if present then any_not_in rest data else Return true
  end.

(** [if key in data: obj.attr = data[key]]. *)
Definition assign_if_present {R : Type} (key : string) (data : json)
    (set : json -> R -> R) (obj : R) : result R :=
  do present <- py_in key data in
  if present
  then do v <- py_getitem data key in Return (set v obj)
  else Return obj.

(** [scheme, token = parts]. *)
Definition unpack2 (parts : list string) : result (string * string) :=
  match parts with
  | [a; b] => Return (a, b)
  | _ => Raise ValueError
  end.

(** What [pyjwt.decode(token, key, algorithms=["HS256"])] does. *)
Inductive jwt_outcome : Type :=
  | Decoded (payload : list (string * json))
  | Expired
  | Invalid (message : string).

(** ** Concrete library behaviours used in the examples

    A storage engine that commits every transaction; a PyJWT in which the
    token [good.admin.token] carries [{admin: true, username: root}],
    [good.user.token] carries [{admin: false}], [old.token] has expired and
    everything else is invalid. *)

Definition engine_accepts : database -> database -> option string :=
  fun _ _ => None.

Definition sample_decode (token : string) (key : option string) : jwt_outcome :=
  if String.eqb token "good.admin.token"
  then Decoded [("admin", JBool true); ("username", JStr "root"); ("exp", JInt 4102444800)]
  else if String.eqb token "good.user.token"
  then Decoded [("admin", JBool false); ("exp", JInt 4102444800)]
  else if String.eqb token "old.token" then Expired
  else Invalid "Not enough segments".

Definition sample_encode (payload : list (string * json)) (key : option string) : string :=
  "good.admin.token".

Definition sample_default_description (code : Z) : string :=
  match code with
  | 404 => "The requested URL was not found on the server."
  | 500 => "The server encountered an internal error."
  | _ => "The request could not be served."
  end.

Definition sample_exn_str (e : exn) : string :=
  match e with
  | HTTPException code description =>
      pretty code ++ " " ++ http_name code ++ ": "
      ++ default (sample_default_description code) description
  | InvalidTokenError message | SQLAlchemyError message | RuntimeError message => message
  | KeyError key => key
  | _ => "error"
  end.

Definition sample_isoformat (t : Z) : string := "@" ++ pretty t.

Definition sample_environ : gmap string string :=
  <["SECRET_KEY" := "s3cret"]>
    (<["DATABASE_URL" := "sqlite:///app.db"]>
       (<["ADMIN_PASSWORD" := "hunter2"]> ∅)).

Definition empty_database : database := Database ∅ ∅ ∅.

Definition sample_review : Review.t :=
  Review.Build 1 (JStr "Ada") (JStr "Acme") (JStr "Great") (JInt 5) 1700000000.

Definition sample_inquiry : Inquiry.t :=
  Inquiry.Build 1 (JStr "Ada") (JStr "ada@acme.test") JNull (JStr "Acme") JNull JNull JNull
                1700000000.

Definition sample_newsletter : Newsletter.t :=
  Newsletter.Build 1 (JStr "Ada") (JStr "ada@acme.test") 1700000000.


Definition inquiry_body : list (string * json) :=
  [("name", JStr "Ada"); ("email", JStr "ada@acme.test"); ("company", JStr "Acme")].

Definition review_body (rating : json) : list (string * json) :=
  [("name", JStr "Ada"); ("company", JStr "Acme"); ("review", JStr "Great");
   ("rating", rating)].

Definition patch_body : list (string * json) :=
  [("name", JStr "Grace"); ("id", JInt 99); ("timestamp", JStr "1999-01-01T00:00:00");
   ("colour", JStr "blue")].

Definition sample_database : database :=
  Database {[ 1 := sample_inquiry ]} {[ 1 := sample_review ]} {[ 1 := sample_newsletter ]}.

(** A storage engine whose queries always run; an environment that also
    names the admin user; bodies for the further examples. *)

Definition query_runs : database -> option string := fun _ => None.

Definition full_environ : gmap string string :=
  <["ADMIN_USERNAME" := "root"]> sample_environ.

Definition login_body : list (string * json) :=
  [("username", JStr "root"); ("password", JStr "hunter2")].

Definition unknown_keys_body : list (string * json) :=
  [("colour", JStr "blue"); ("id", JInt 99)].

Definition rename_body : list (string * json) := [("name", JStr "Grace")].

Definition array_body : json := JArr [JStr "name"; JStr "email"].

(** ** The application *)

Section Service.

Set Default Proof Using "Type".

(** The process environment after [load_dotenv()]. *)
Variable environ : gmap string string.

(** PyJWT: [decode token key] and [encode payload key], HS256. *)
Variable pyjwt_decode : string -> option string -> jwt_outcome.
Variable pyjwt_encode : list (string * json) -> option string -> string.

(** The storage engine's verdict when the session flushes: given the
    committed tables and the tables the unit of work asks for, [None] if
    the transaction commits, or the error it raises. *)
Variable flush_error : database -> database -> option string.

(** [str(e)] and [datetime.isoformat()]. *)
Variable exn_str : exn -> string.
Variable isoformat : Z -> string.

(** werkzeug's default description of a status code. *)
Variable default_description : Z -> string.

Definition getenv (var : string) : option string := environ !! var.

(** [app.config['SECRET_KEY']]. *)
Definition SECRET_KEY : option string := getenv "SECRET_KEY".

(** [db.session.commit()]. *)
Definition commit (db pending : database) : result database :=
  match flush_error db pending with
  | None => Return pending
  | Some message => Raise (SQLAlchemyError message)
  end.

(** The shape shared by the writing views:
    [try: body
     except Exception as e: db.session.rollback(); abort(500, description=prefix + str(e))].
    [body] yields the response and the tables after its commit; the
    rollback leaves the committed tables as they were. *)
Definition try_rollback (db : database) (prefix : string)
    (body : result (response * database)) : result response * database :=
  match body with
  | Return (resp, db') => (Return resp, db')
  | Raise e => (abort 500 (prefix ++ exn_str e), db)
  end.

(** Code ahead of the [try] block: an exception leaves the view. *)
Definition after_checks (db : database) (checks : result unit)
    (rest : result response * database) : result response * database :=
  match checks with
  | Return _ => rest
  | Raise e => (Raise e, db)
  end.

(** *** [handle_error] and what Flask does with a view's outcome *)

Definition handle_error (code : Z) (description : option string) : response :=
  Response code
    (JObj [("error", JStr (http_name code));
           ("message", JStr (default (default_description code) description))]).

(** An [HTTPException] goes to [handle_error]; any other exception that
    leaves a view is turned into [InternalServerError] first. *)
Definition respond (outcome : result response) : response :=
  match outcome with
  | Return resp => resp
  | Raise (HTTPException code description) => handle_error code description
  | Raise _ => handle_error 500 None
  end.

(** *** [admin_required] *)

Definition decode (token : string) : result (list (string * json)) :=
  match pyjwt_decode token SECRET_KEY with
  | Decoded payload => Return payload
  | Expired => Raise ExpiredSignatureError
  | Invalid message => Raise (InvalidTokenError message)
  end.

(** The body of the [try] block of [decorated]. *)
Definition check_header (auth_header : string) : result unit :=
  do parts <- unpack2 (py_split auth_header) in
  let (scheme, token) := parts in
  do _ <- (if negb (String.eqb (lower scheme) "bearer")
           then abort 401 "Invalid authorization scheme" else Return tt) in
  do payload <- decode token in
  do admin <- py_get (JObj payload) "admin" in
  if negb (truthy admin)
  then abort 403 "Admin privileges required" else Return tt.

(** The three [except] clauses, in source order. *)
Definition guard_catches (e : exn) : bool :=
  match e with
  | ExpiredSignatureError | InvalidTokenError _ | ValueError => true
  | _ => false
  end.

Definition guard_except (e : exn) : result unit :=
  match e with
  | ExpiredSignatureError => abort 401 "Token has expired"
  | InvalidTokenError _ => abort 401 ("Invalid token: " ++ exn_str e)
  | _ => abort 401 "Invalid authorization header format"
  end.

(** Everything [decorated] does before it calls the wrapped view;
    [auth_header] is [request.headers.get("Authorization")]. *)
Definition guard (auth_header : option string) : result unit :=
  match auth_header with
  | None => abort 401 "Authorization header is missing"
  | Some h =>
      if String.eqb h EmptyString
      then abort 401 "Authorization header is missing"
      else try_except (check_header h) guard_catches guard_except
  end.

Definition admin_required (f : database -> result response * database)
    (auth_header : option string) (db : database) : result response * database :=
  match guard auth_header with
  | Return _ => f db
  | Raise e => (Raise e, db)
  end.

(** *** [POST /api/login] *)

Definition login (now : Z) (data : json) : result response :=
  do incomplete <- (if negb (truthy data) then Return true
                    else any_not_in ["username"; "password"] data) in
  do _ <- (if (incomplete : bool)
           then abort 400 "Username and password are required" else Return tt) in
  let admin_username := getenv "ADMIN_USERNAME" in
  let admin_password := getenv "ADMIN_PASSWORD" in
  do username <- py_getitem data "username" in
  do mismatch <- (if py_ne_getenv username admin_username then Return true
                  else do password <- py_getitem data "password" in
                       Return (py_ne_getenv password admin_password)) in
  do _ <- (if (mismatch : bool) then abort 401 "Invalid credentials" else Return tt) in
  let expiration_time := now + 3600 in
  do username <- py_getitem data "username" in
  let token :=
    pyjwt_encode [("admin", JBool true); ("username", username);
                  ("exp", JInt expiration_time)] SECRET_KEY in
  Return (Response 200
            (JObj [("token", JStr token);
                   ("expires_at", JStr (isoformat expiration_time));
                   ("dashboard_url", JStr "/admin")])).

(** *** Public submissions

    The row is built by the model's constructor and inserted when the
    session flushes: the storage engine gives it a primary key that the
    table does not use yet ([fresh]), and the column default
    [datetime.utcnow] gives the timestamp, [now] being the reading of the
    UTC clock. *)

Definition create_inquiry (now : Z) (data : json) (db : database)
    : result response * database :=
  after_checks db
    (do _ <- (if negb (truthy data) then abort 400 "No data provided" else Return tt) in
     do missing_fields <- fields_not_in ["name"; "email"] data in
     match missing_fields with
     | [] => Return tt
     | _ => abort 400 ("Missing required fields: " ++ join ", " missing_fields)
     end)
    (try_rollback db "Failed to create inquiry: "
       (do name <- py_get data "name" in
        do email <- py_get data "email" in
        do phone <- py_get data "phone" in
        do company <- py_get data "company" in
        do country <- py_get data "country" in
        do job_title <- py_get data "job_title" in
        do job_details <- py_get data "job_details" in
        let inquiry :=
          Inquiry.Build (fresh (dom (inquiries db))) name email phone company
                        country job_title job_details now in
        do db' <- commit db
                    (with_inquiries (<[Inquiry.id inquiry := inquiry]> (inquiries db)) db) in
        Return (Response 201 (JObj [("message", JStr "Inquiry submitted successfully")]),
                db'))).

Definition submit_review (now : Z) (data : json) (db : database)
    : result response * database :=
  after_checks db
    (do incomplete <- (if negb (truthy data) then Return true
                       else any_not_in ["name"; "company"; "review"; "rating"] data) in
     do _ <- (if (incomplete : bool)
              then abort 400 "Name, company, review, and rating are required"
              else Return tt) in
     do rating <- py_getitem data "rating" in
     do in_range <- chained_le 1 rating 5 in
     if negb in_range then abort 400 "Rating must be between 1 and 5" else Return tt)
    (try_rollback db "Failed to submit review: "
       (do name <- py_getitem data "name" in
        do company <- py_getitem data "company" in
        do review <- py_getitem data "review" in
        do rating <- py_getitem data "rating" in
        let row := Review.Build (fresh (dom (reviews db))) name company review rating now in
        do db' <- commit db (with_reviews (<[Review.id row := row]> (reviews db)) db) in
        Return (Response 201 (JObj [("message", JStr "Review submitted successfully")]),
                db'))).

Definition create_newsletter (now : Z) (data : json) (db : database)
    : result response * database :=
  after_checks db
    (do _ <- (if negb (truthy data) then abort 400 "No data provided" else Return tt) in
     do missing_fields <- fields_not_in ["name"; "email"] data in
     match missing_fields with
     | [] => Return tt
     | _ => abort 400 ("Missing required fields: " ++ join ", " missing_fields)
     end)
    (try_rollback db "Failed to create newsletter: "
       (do name <- py_get data "name" in
        do email <- py_get data "email" in
        let newsletter := Newsletter.Build (fresh (dom (newsletters db))) name email now in
        do db' <- commit db
                    (with_newsletters
                       (<[Newsletter.id newsletter := newsletter]> (newsletters db)) db) in
        Return (Response 201
                  (JObj [("message", JStr "Newsletter subscription submitted successfully")]),
                db'))).

(** *** Admin views (each is wrapped in [admin_required] by its route) *)

(** The full record as the update views serialise it. *)
Definition inquiry_json (i : Inquiry.t) : json :=
  JObj [("id", JInt (Inquiry.id i));
        ("name", Inquiry.name i);
        ("email", Inquiry.email i);
        ("phone", Inquiry.phone i);
        ("company", Inquiry.company i);
        ("country", Inquiry.country i);
        ("job_title", Inquiry.job_title i);
        ("job_details", Inquiry.job_details i);
        ("timestamp", JStr (isoformat (Inquiry.timestamp i)))].

Definition review_json (r : Review.t) : json :=
  JObj [("id", JInt (Review.id r));
        ("name", Review.name r);
        ("company", Review.company r);
        ("review", Review.review r);
        ("rating", Review.rating r);
        ("timestamp", JStr (isoformat (Review.timestamp r)))].

Definition newsletter_json (n : Newsletter.t) : json :=
  JObj [("id", JInt (Newsletter.id n));
        ("name", Newsletter.name n);
        ("email", Newsletter.email n);
        ("timestamp", JStr (isoformat (Newsletter.timestamp n)))].

Definition delete_inquiry (inquiry_id : Z) (db : database)
    : result response * database :=
  try_rollback db "Failed to delete inquiry: "
    (do inquiry <- get_or_404 (inquiries db) inquiry_id in
     do db' <- commit db (with_inquiries (delete inquiry_id (inquiries db)) db) in
     Return (Response 200
               (JObj [("message",
                       JStr ("Inquiry " ++ pretty inquiry_id ++ " deleted successfully"))]),
             db')).

Definition update_inquiry (inquiry_id : Z) (data : json) (db : database)
    : result response * database :=
  after_checks db
    (if negb (truthy data) then abort 400 "No data provided" else Return tt)
    (try_rollback db "Failed to update inquiry: "
       (do inquiry <- get_or_404 (inquiries db) inquiry_id in
        do inquiry <- assign_if_present "name" data Inquiry.set_name inquiry in
        do inquiry <- assign_if_present "email" data Inquiry.set_email inquiry in
        do inquiry <- assign_if_present "phone" data Inquiry.set_phone inquiry in
        do inquiry <- assign_if_present "company" data Inquiry.set_company inquiry in
        do inquiry <- assign_if_present "country" data Inquiry.set_country inquiry in
        do inquiry <- assign_if_present "job_title" data Inquiry.set_job_title inquiry in
        do inquiry <- assign_if_present "job_details" data Inquiry.set_job_details inquiry in
        do db' <- commit db (with_inquiries (<[inquiry_id := inquiry]> (inquiries db)) db) in
        Return (Response 200 (inquiry_json inquiry), db'))).

Definition delete_newsletter (newsletter_id : Z) (db : database)
    : result response * database :=
  try_rollback db "Failed to delete newsletter subscription: "
    (do newsletter <- get_or_404 (newsletters db) newsletter_id in
     do db' <- commit db (with_newsletters (delete newsletter_id (newsletters db)) db) in
     Return (Response 200
               (JObj [("message",
                       JStr ("Newsletter subscription " ++ pretty newsletter_id
                             ++ " deleted successfully"))]),
             db')).

Definition update_newsletter (newsletter_id : Z) (data : json) (db : database)
    : result response * database :=
  after_checks db
    (if negb (truthy data) then abort 400 "No data provided" else Return tt)
    (try_rollback db "Failed to update newsletter subscription: "
       (do newsletter <- get_or_404 (newsletters db) newsletter_id in
        do newsletter <- assign_if_present "name" data Newsletter.set_name newsletter in
        do newsletter <- assign_if_present "email" data Newsletter.set_email newsletter in
        do db' <- commit db
                    (with_newsletters (<[newsletter_id := newsletter]> (newsletters db)) db) in
        Return (Response 200 (newsletter_json newsletter), db'))).

Definition delete_review (review_id : Z) (db : database)
    : result response * database :=
  try_rollback db "Failed to delete review: "
    (do review <- get_or_404 (reviews db) review_id in
     do db' <- commit db (with_reviews (delete review_id (reviews db)) db) in
     Return (Response 200
               (JObj [("message",
                       JStr ("Review " ++ pretty review_id ++ " deleted successfully"))]),
             db')).

(** [if "rating" in data: if not (1 <= data["rating"] <= 5): abort(400, ...);
     review.rating = data["rating"]]. *)
Definition assign_rating (data : json) (review : Review.t) : result Review.t :=
  do present <- py_in "rating" data in
  if present
  then do rating <- py_getitem data "rating" in
       do in_range <- chained_le 1 rating 5 in
       if negb in_range
       then abort 400 "Rating must be between 1 and 5"
       else do rating <- py_getitem data "rating" in
            Return (Review.set_rating rating review)
  else Return review.

Definition update_review (review_id : Z) (data : json) (db : database)
    : result response * database :=
  after_checks db
    (if negb (truthy data) then abort 400 "No data provided" else Return tt)
    (try_rollback db "Failed to update review: "
       (do review <- get_or_404 (reviews db) review_id in
        do review <- assign_if_present "name" data Review.set_name review in
        do review <- assign_if_present "company" data Review.set_company review in
        do review <- assign_if_present "review" data Review.set_review review in
        do review <- assign_rating data review in
        do db' <- commit db (with_reviews (<[review_id := review]> (reviews db)) db) in
        Return (Response 200 (review_json review), db'))).

(** *** Listings *)

(** The storage engine's verdict on a [SELECT]: [None] if the query runs,
    or the error it raises. *)
Variable query_error : database -> option string.

(** [ORDER BY timestamp DESC]: latest first. The order among rows of equal
    timestamp is the engine's; the facts proved about listings do not
    depend on it. *)
Definition latest_first {R : Type} (timestamp : R -> Z) : relation R :=
  fun x y => timestamp y <= timestamp x.

Definition latest_first_dec {R : Type} (timestamp : R -> Z) (x y : R)
    : Decision (latest_first timestamp x y) :=
  Z.le_dec (timestamp y) (timestamp x).

Definition order_by_timestamp_desc {R : Type} (timestamp : R -> Z) (rows : list R)
    : list R :=
  @merge_sort R (latest_first timestamp) (latest_first_dec timestamp) rows.

(** [Model.query.order_by(Model.timestamp.desc()).all()]. *)
Definition query_latest_first {R : Type} (timestamp : R -> Z) (table : gmap Z R)
    (db : database) : result (list R) :=
  match query_error db with
  | None => Return (order_by_timestamp_desc timestamp (snd <$> map_to_list table))
  | Some message => Raise (SQLAlchemyError message)
  end.

(** The shape shared by the listing views:
    [try: body
     except Exception as e: abort(500, description=prefix + str(e))]. *)
Definition try_listing (db : database) (prefix : string) (body : result response)
    : result response * database :=
  match body with
  | Return resp => (Return resp, db)
  | Raise e => (abort 500 (prefix ++ exn_str e), db)
  end.

Definition get_inquiries (db : database) : result response * database :=
  try_listing db "Failed to retrieve inquiries: "
    (do inquiries <- query_latest_first Inquiry.timestamp (inquiries db) db in
     Return (Response 200 (JArr (inquiry_json <$> inquiries)))).

Definition get_reviews (db : database) : result response * database :=
  try_listing db "Failed to retrieve reviews: "
    (do reviews <- query_latest_first Review.timestamp (reviews db) db in
     Return (Response 200 (JArr (review_json <$> reviews)))).

Definition get_newsletters (db : database) : result response * database :=
  try_listing db "Failed to retrieve newsletters: "
    (do newsletters <- query_latest_first Newsletter.timestamp (newsletters db) db in
     Return (Response 200 (JArr (newsletter_json <$> newsletters)))).

(** ** Specification-level vocabulary

    These definitions follow the words of the specification; the theorems
    below compare them with the views above. *)

(** The guard's rejection kinds, and the order in which the specification
    lists the checks: missing header, malformed header (token count, then
    scheme), the token itself, and last the admin claim. *)
Inductive rejection : Type :=
  | MissingHeader
  | MalformedFormat
  | MalformedScheme
  | ExpiredToken
  | InvalidToken (message : string)
  | InsufficientPrivilege.

Definition rejection_status (r : rejection) : Z :=
  match r with
  | InsufficientPrivilege => 403
  | _ => 401
  end.

Definition rejection_description (r : rejection) : string :=
  match r with
  | MissingHeader => "Authorization header is missing"
  | MalformedFormat => "Invalid authorization header format"
  | MalformedScheme => "Invalid authorization scheme"
  | ExpiredToken => "Token has expired"
  | InvalidToken message => "Invalid token: " ++ exn_str (InvalidTokenError message)
  | InsufficientPrivilege => "Admin privileges required"
  end.

Definition first_failed_check (auth_header : option string) : option rejection :=
  match auth_header with
  | None => Some MissingHeader
  | Some h =>
      if String.eqb h EmptyString then Some MissingHeader
      else match py_split h with
           | [scheme; token] =>
               if negb (String.eqb (lower scheme) "bearer") then Some MalformedScheme
               else match pyjwt_decode token SECRET_KEY with
                    | Expired => Some ExpiredToken
                    | Invalid message => Some (InvalidToken message)
                    | Decoded payload =>
                        if truthy (default JNull (dict_lookup "admin" payload))
                        then None else Some InsufficientPrivilege
                    end
           | _ => Some MalformedFormat
           end
  end.

(** [v == n] for an [int] [n], and membership of the set {1,2,3,4,5}. *)
Definition py_eq_int (v : json) (n : Z) : bool :=
  match as_number v with
  | Some (FNum q) => Qeq_bool q (inject_Z n)
  | _ => false
  end.

Definition one_to_five (v : json) : bool :=
  existsb (py_eq_int v) [1; 2; 3; 4; 5].

(** The range check both review views apply: [1 <= v <= 5] holds. *)
Definition in_range (v : json) : Prop := chained_le 1 v 5 = Return true.

Definition ratings_in_range (db : database) : Prop :=
  forall ident r, reviews db !! ident = Some r -> in_range (Review.rating r).


(** The value of a mutable field after an update: the supplied one if the
    key is in the field set, the old one otherwise. *)
Definition supplied (key : string) (members : list (string * json)) (old : json) : json :=
  default old (dict_lookup key members).

Definition patched_inquiry (members : list (string * json)) (i : Inquiry.t) : Inquiry.t :=
  Inquiry.Build (Inquiry.id i)
    (supplied "name" members (Inquiry.name i))
    (supplied "email" members (Inquiry.email i))
    (supplied "phone" members (Inquiry.phone i))
    (supplied "company" members (Inquiry.company i))
    (supplied "country" members (Inquiry.country i))
    (supplied "job_title" members (Inquiry.job_title i))
    (supplied "job_details" members (Inquiry.job_details i))
    (Inquiry.timestamp i).

Definition patched_review (members : list (string * json)) (r : Review.t) : Review.t :=
  Review.Build (Review.id r)
    (supplied "name" members (Review.name r))
    (supplied "company" members (Review.company r))
    (supplied "review" members (Review.review r))
    (supplied "rating" members (Review.rating r))
    (Review.timestamp r).

Definition patched_newsletter (members : list (string * json)) (n : Newsletter.t)
    : Newsletter.t :=
  Newsletter.Build (Newsletter.id n)
    (supplied "name" members (Newsletter.name n))
    (supplied "email" members (Newsletter.email n))
    (Newsletter.timestamp n).

(** Only the whitelisted keys of a field set. *)
Definition restrict (keys : list string) (members : list (string * json))
    : list (string * json) :=
  List.filter (fun kv => existsb (String.eqb (fst kv)) keys) members.

Definition inquiry_fields : list string :=
  ["name"; "email"; "phone"; "company"; "country"; "job_title"; "job_details"].
Definition review_fields : list string := ["name"; "company"; "review"; "rating"].
Definition newsletter_fields : list string := ["name"; "email"].

(** A required field is absent from a field set. *)
Definition absent (members : list (string * json)) (field : string) : bool :=
  match dict_lookup field members with
  | None => true
  | Some _ => false
  end.

(** [data.get(key)] on a field set. *)
Definition field_or_null (members : list (string * json)) (key : string) : json :=
  default JNull (dict_lookup key members).

(** The status code the client sees for a view's outcome. *)
Definition reported_status (outcome : result response) : Z :=
  match outcome with
  | Return resp => status resp
  | Raise (HTTPException code _) => code
  | Raise _ => 500
  end.

(** Every character of a string satisfies a test. *)
Fixpoint all_chars (test : ascii -> bool) (s : string) : bool :=
  match s with
  | EmptyString => true
  | String c rest => test c && all_chars test rest
  end.

(** A run of white space, and a word without any. *)
Definition blank (s : string) : bool := all_chars is_space s.
Definition word (s : string) : bool :=
  negb (String.eqb s EmptyString) && all_chars (fun c => negb (is_space c)) s.

(** Every row is stored under its own id. *)
Definition keyed_by_id (db : database) : Prop :=
  (forall k r, inquiries db !! k = Some r -> Inquiry.id r = k)
  /\ (forall k r, reviews db !! k = Some r -> Review.id r = k)
  /\ (forall k r, newsletters db !! k = Some r -> Newsletter.id r = k).

(** ** Facts about the Python operators *)

Lemma py_in_obj (key : string) (members : list (string * json)) :
  py_in key (JObj members) =
  Return (match dict_lookup key members with Some _ => true | None => false end).
Proof. reflexivity. Qed.

Lemma assign_if_present_obj {R : Type} (key : string) (members : list (string * json))
    (set : json -> R -> R) (obj : R) :
  assign_if_present key (JObj members) set obj =
  Return (match dict_lookup key members with Some v => set v obj | None => obj end).
Proof.
  unfold assign_if_present. cbn [py_in py_getitem bind].
  destruct (dict_lookup key members); reflexivity.
Qed.

Lemma truthy_obj (members : list (string * json)) :
  members <> [] -> truthy (JObj members) = true.
Proof. destruct members; [congruence | reflexivity]. Qed.

Lemma dict_lookup_nonempty (key : string) (members : list (string * json)) (v : json) :
  dict_lookup key members = Some v -> members <> [].
Proof. destruct members; [discriminate | congruence]. Qed.

Lemma guard_passes (f : database -> result response * database)
    (auth_header : option string) (db : database) :
  guard auth_header = Return tt -> admin_required f auth_header db = f db.
Proof. intros H. unfold admin_required. rewrite H. reflexivity. Qed.

Lemma abort_is_reported (code : Z) (description : string) :
  status (respond (abort code description)) = code.
Proof. reflexivity. Qed.

(** ** Unknown identifiers *)

Lemma get_or_404_missing {R : Type} (table : gmap Z R) (ident : Z) :
  table !! ident = None -> get_or_404 table ident = Raise (HTTPException 404 None).
Proof. intros H. unfold get_or_404. rewrite H. reflexivity. Qed.

Lemma get_or_404_found {R : Type} (table : gmap Z R) (ident : Z) (r : R) :
  table !! ident = Some r -> get_or_404 table ident = Return r.
Proof. intros H. unfold get_or_404. rewrite H. reflexivity. Qed.

(** C1. The claim asks for 404 when an update or delete names an id with no
    record. Every such view instead answers 500: [get_or_404] raises the
    404 inside the [try] block, [except Exception] catches it, rolls back
    and aborts with 500, the text of the 404 appended to the view's
    prefix. The tables are left as they were. *)
Theorem unknown_id_answers_500 (auth_header : option string) (ident : Z)
    (data : json) (db : database) :
  guard auth_header = Return tt ->
  truthy data = true ->
  let lost := exn_str (HTTPException 404 None) in
  (inquiries db !! ident = None ->
     admin_required (delete_inquiry ident) auth_header db
       = (abort 500 ("Failed to delete inquiry: " ++ lost), db) /\
     admin_required (update_inquiry ident data) auth_header db
       = (abort 500 ("Failed to update inquiry: " ++ lost), db)) /\
  (reviews db !! ident = None ->
     admin_required (delete_review ident) auth_header db
       = (abort 500 ("Failed to delete review: " ++ lost), db) /\
     admin_required (update_review ident data) auth_header db
       = (abort 500 ("Failed to update review: " ++ lost), db)) /\
  (newsletters db !! ident = None ->
     admin_required (delete_newsletter ident) auth_header db
       = (abort 500 ("Failed to delete newsletter subscription: " ++ lost), db) /\
     admin_required (update_newsletter ident data) auth_header db
       = (abort 500 ("Failed to update newsletter subscription: " ++ lost), db)).
Proof.
  intros Hguard Hdata lost.
  rewrite !guard_passes by assumption.
  unfold delete_inquiry, update_inquiry, delete_review, update_review,
    delete_newsletter, update_newsletter, after_checks.
  rewrite Hdata. cbn [negb].
  split; [|split]; intros Hnone;
    rewrite (get_or_404_missing _ _ Hnone); split; reflexivity.
Qed.

(** ** Review updates with a rating out of range *)

Lemma assign_rating_obj (members : list (string * json)) (review : Review.t) :
  assign_rating (JObj members) review =
  match dict_lookup "rating" members with
  | None => Return review
  | Some rating =>
      match chained_le 1 rating 5 with
      | Return true => Return (Review.set_rating rating review)
      | Return false => abort 400 "Rating must be between 1 and 5"
      | Raise e => Raise e
      end
  end.
Proof.
  unfold assign_rating. rewrite py_in_obj. cbn [bind py_getitem].
  destruct (dict_lookup "rating" members) as [rating|]; [|reflexivity].
  cbn [bind]. destruct (chained_le 1 rating 5) as [[|]|e]; reflexivity.
Qed.

(** C2. The claim asks for 400 when a review update carries a rating outside
    [1,5]. The view raises that 400 inside its [try] block, where
    [except Exception] catches it: the client gets 500. What the claim says
    about the record does hold: the rollback leaves it exactly as it
    was. *)
Theorem out_of_range_update_answers_500 (auth_header : option string) (review_id : Z)
    (members : list (string * json)) (rating : json) (review : Review.t)
    (db : database) :
  guard auth_header = Return tt ->
  reviews db !! review_id = Some review ->
  dict_lookup "rating" members = Some rating ->
  chained_le 1 rating 5 = Return false ->
  admin_required (update_review review_id (JObj members)) auth_header db
    = (abort 500 ("Failed to update review: "
                  ++ exn_str (HTTPException 400 (Some "Rating must be between 1 and 5"))),
       db).
Proof.
  intros Hguard Hrow Hrating Hrange.
  rewrite guard_passes by assumption.
  unfold update_review, after_checks.
  rewrite (truthy_obj _ (dict_lookup_nonempty _ _ _ Hrating)). cbn [negb].
  rewrite (get_or_404_found _ _ _ Hrow). cbn [bind].
  repeat (rewrite assign_if_present_obj; cbn [bind]).
  rewrite assign_rating_obj, Hrating, Hrange. reflexivity.
Qed.

(** ** The admin guard *)

Lemma admin_required_unfolded (f : database -> result response * database)
    (auth_header : option string) (db : database) :
  admin_required f auth_header db =
  match first_failed_check auth_header with
  | None => f db
  | Some r => (abort (rejection_status r) (rejection_description r), db)
  end.
Proof.
  unfold admin_required, guard, first_failed_check.
  destruct auth_header as [h|]; [|reflexivity].
  destruct (String.eqb h EmptyString); [reflexivity|].
  unfold check_header.
  destruct (py_split h) as [|scheme [|token [|extra rest]]]; try reflexivity.
  cbn [unpack2 bind].
  destruct (String.eqb (lower scheme) "bearer"); [|reflexivity].
  cbn [negb bind]. unfold decode.
  destruct (pyjwt_decode token SECRET_KEY) as [payload| |message]; try reflexivity.
  cbn [bind py_get].
  destruct (truthy (default JNull (dict_lookup "admin" payload))); reflexivity.
Qed.

(** C3. The guard applies its checks in the specification's order and
    rejects at the first that fails, before the wrapped view runs and
    without touching the tables: a missing (or empty) header, a header
    that does not split into exactly two tokens, a scheme other than
    [bearer] in any letter case, an expired token, an invalid token (all
    401), then a payload whose [admin] claim is absent or false (403).
    The view runs exactly when no check fails. Tokens are split as
    [str.split()] does, and the admin claim is tested as
    [not payload.get("admin")] does. *)
Theorem guard_checks_in_order (f : database -> result response * database)
    (auth_header : option string) (db : database) :
  admin_required f auth_header db =
    match first_failed_check auth_header with
    | None => f db
    | Some r => (abort (rejection_status r) (rejection_description r), db)
    end
  /\ (forall r, first_failed_check auth_header = Some r ->
        forall g, admin_required g auth_header db = admin_required f auth_header db)
  /\ (forall r, first_failed_check auth_header = Some r ->
        (rejection_status r = 403 <-> r = InsufficientPrivilege)
        /\ (rejection_status r = 401 <-> r <> InsufficientPrivilege)).
Proof.
  split; [apply admin_required_unfolded|]. split.
  - intros r Hr g. rewrite !admin_required_unfolded, Hr. reflexivity.
  - intros r _. destruct r; cbn; split; split; intros H; congruence || lia.
Qed.

(** C9. The guard never looks at the [username] claim: whenever the header
    is [Bearer <token>], the token decodes under the server secret
    (correctly signed, not expired) and its payload has [admin] equal to
    true, the wrapped view runs, whatever the payload holds under
    [username], if anything. *)
Theorem guard_ignores_username (f : database -> result response * database)
    (h scheme token : string) (payload : list (string * json))
    (username : option json) (db : database) :
  h <> EmptyString ->
  py_split h = [scheme; token] ->
  lower scheme = "bearer" ->
  pyjwt_decode token SECRET_KEY = Decoded payload ->
  dict_lookup "admin" payload = Some (JBool true) ->
  dict_lookup "username" payload = username ->
  admin_required f (Some h) db = f db.
Proof.
  intros Hne Hsplit Hscheme Hdecode Hadmin _.
  rewrite admin_required_unfolded. unfold first_failed_check.
  apply String.eqb_neq in Hne. rewrite Hne, Hsplit, Hscheme, Hdecode, Hadmin.
  reflexivity.
Qed.

(** ** Create requests *)

Lemma fields_not_in_obj (fields : list string) (members : list (string * json)) :
  fields_not_in fields (JObj members) = Return (List.filter (absent members) fields).
Proof.
  induction fields as [|field rest IH]; [reflexivity|].
  cbn [fields_not_in List.filter]. rewrite py_in_obj, IH. cbn [bind].
  change (absent members field)
    with (match dict_lookup field members with None => true | Some _ => false end).
  destruct (dict_lookup field members); reflexivity.
Qed.

Lemma any_not_in_obj (fields : list string) (members : list (string * json)) :
  any_not_in fields (JObj members) = Return (existsb (absent members) fields).
Proof.
  induction fields as [|field rest IH]; [reflexivity|].
  cbn [any_not_in existsb]. rewrite py_in_obj. cbn [bind].
  change (absent members field)
    with (match dict_lookup field members with None => true | Some _ => false end).
  destruct (dict_lookup field members); [exact IH | reflexivity].
Qed.

Lemma fresh_key_unused {R : Type} (table : gmap Z R) :
  table !! fresh (dom table) = None.
Proof. apply not_elem_of_dom. apply is_fresh. Qed.

(** C10. A review submission that has all four required keys but whose
    rating cannot be compared with an [int] (a string, [null], a list, an
    object) makes the range check raise [TypeError] ahead of the [try]
    block: the exception leaves the view uncaught, Flask answers with its
    generic 500 and not with a 400, and no row is created. *)
Theorem uncomparable_rating_escapes (now : Z) (members : list (string * json))
    (rating : json) (db : database) :
  existsb (absent members) review_fields = false ->
  dict_lookup "rating" members = Some rating ->
  as_number rating = None ->
  submit_review now (JObj members) db = (Raise TypeError, db)
  /\ respond (Raise TypeError) = handle_error 500 None
  /\ status (respond (fst (submit_review now (JObj members) db))) = 500.
Proof.
  intros Hall Hrating Hnum.
  assert (Hrun : submit_review now (JObj members) db = (Raise TypeError, db)).
  { unfold submit_review, after_checks.
    rewrite (truthy_obj _ (dict_lookup_nonempty _ _ _ Hrating)). cbn [negb].
    rewrite any_not_in_obj. fold review_fields. rewrite Hall.
    cbn [bind py_getitem]. rewrite Hrating. cbn [bind].
    unfold chained_le, int_le_py. rewrite Hnum. reflexivity. }
  rewrite Hrun. repeat split.
Qed.


(** C7, as the views have it. A create request whose body is a JSON object
    with the required fields (and, for a review, a rating in range), and
    whose transaction the storage engine commits, adds exactly one row:
    under a key the table did not use, stamped with the current UTC time,
    its fields read from the body. The answer is 201 with a confirmation
    message; the created record is not returned. *)
Theorem create_persists_and_confirms (now : Z) (members : list (string * json))
    (db : database) :
  (let row :=
     Inquiry.Build (fresh (dom (inquiries db)))
       (field_or_null members "name") (field_or_null members "email")
       (field_or_null members "phone") (field_or_null members "company")
       (field_or_null members "country") (field_or_null members "job_title")
       (field_or_null members "job_details") now in
   let db' := with_inquiries (<[Inquiry.id row := row]> (inquiries db)) db in
   existsb (absent members) ["name"; "email"] = false ->
   flush_error db db' = None ->
   create_inquiry now (JObj members) db
     = (Return (Response 201 (JObj [("message", JStr "Inquiry submitted successfully")])),
        db')
   /\ inquiries db !! Inquiry.id row = None
   /\ inquiries db' !! Inquiry.id row = Some row
   /\ (forall k, k <> Inquiry.id row -> inquiries db' !! k = inquiries db !! k))
  /\
  (let row :=
     Review.Build (fresh (dom (reviews db)))
       (field_or_null members "name") (field_or_null members "company")
       (field_or_null members "review") (field_or_null members "rating") now in
   let db' := with_reviews (<[Review.id row := row]> (reviews db)) db in
   existsb (absent members) review_fields = false ->
   in_range (field_or_null members "rating") ->
   flush_error db db' = None ->
   submit_review now (JObj members) db
     = (Return (Response 201 (JObj [("message", JStr "Review submitted successfully")])),
        db')
   /\ reviews db !! Review.id row = None
   /\ reviews db' !! Review.id row = Some row
   /\ (forall k, k <> Review.id row -> reviews db' !! k = reviews db !! k))
  /\
  (let row :=
     Newsletter.Build (fresh (dom (newsletters db)))
       (field_or_null members "name") (field_or_null members "email") now in
   let db' := with_newsletters (<[Newsletter.id row := row]> (newsletters db)) db in
   existsb (absent members) ["name"; "email"] = false ->
   flush_error db db' = None ->
   create_newsletter now (JObj members) db
     = (Return (Response 201
                  (JObj [("message",
                          JStr "Newsletter subscription submitted successfully")])),
        db')
   /\ newsletters db !! Newsletter.id row = None
   /\ newsletters db' !! Newsletter.id row = Some row
   /\ (forall k, k <> Newsletter.id row -> newsletters db' !! k = newsletters db !! k)).
Proof.
  assert (Hnonempty : forall fields field rest,
            fields = field :: rest ->
            existsb (absent members) fields = false -> members <> []).
  { intros fields field rest -> H Hnil. subst members. discriminate H. }
  assert (Hfilter : forall fields,
            existsb (absent members) fields = false ->
            List.filter (absent members) fields = []).
  { induction fields as [|field rest IH]; [reflexivity|].
    cbn [existsb List.filter]. intros H. apply orb_false_elim in H as [-> H].
    auto. }
  split; [|split].
  - intros row db' Hall Hflush.
    split; [|split; [apply fresh_key_unused|split]].
    + unfold create_inquiry, after_checks.
      rewrite (truthy_obj _ (Hnonempty _ _ _ eq_refl Hall)). cbn [negb bind].
      rewrite fields_not_in_obj, (Hfilter _ Hall). cbn [bind py_get].
      unfold try_rollback, commit.
      change (flush_error db db') with (flush_error db db') in Hflush.
      fold (field_or_null members "name") (field_or_null members "email")
        (field_or_null members "phone") (field_or_null members "company")
        (field_or_null members "country") (field_or_null members "job_title")
        (field_or_null members "job_details").
      fold row. fold db'. rewrite Hflush. reflexivity.
    + subst db'. cbn. apply lookup_insert_eq.
    + intros k Hk. subst row db'. cbn in *. apply lookup_insert_ne.
      intros E. apply Hk. symmetry. exact E.
  - intros row db' Hall Hrange Hflush.
    split; [|split; [apply fresh_key_unused|split]].
    + pose proof Hall as Hpresent. unfold review_fields in Hpresent.
      cbn [existsb] in Hpresent. unfold absent in Hpresent.
      unfold in_range, field_or_null in Hrange.
      subst row db'. unfold field_or_null in *.
      unfold submit_review, after_checks.
      rewrite (truthy_obj _ (Hnonempty _ _ _ eq_refl Hall)). cbn [negb].
      rewrite any_not_in_obj. fold review_fields. rewrite Hall.
      cbn [bind py_getitem].
      destruct (dict_lookup "name" members); [|discriminate Hpresent].
      destruct (dict_lookup "company" members); [|discriminate Hpresent].
      destruct (dict_lookup "review" members); [|discriminate Hpresent].
      destruct (dict_lookup "rating" members); [|discriminate Hpresent].
      cbn [default from_option id] in *. cbn [bind]. rewrite Hrange. cbn [bind negb].
      unfold try_rollback, commit. cbn [bind]. cbn in Hflush. cbn.
      rewrite Hflush. reflexivity.
    + subst db'. cbn. apply lookup_insert_eq.
    + intros k Hk. subst row db'. cbn in *. apply lookup_insert_ne.
      intros E. apply Hk. symmetry. exact E.
  - intros row db' Hall Hflush.
    split; [|split; [apply fresh_key_unused|split]].
    + unfold create_newsletter, after_checks.
      rewrite (truthy_obj _ (Hnonempty _ _ _ eq_refl Hall)). cbn [negb bind].
      rewrite fields_not_in_obj, (Hfilter _ Hall). cbn [bind py_get].
      unfold try_rollback, commit.
      fold (field_or_null members "name") (field_or_null members "email").
      fold row. fold db'. rewrite Hflush. reflexivity.
    + subst db'. cbn. apply lookup_insert_eq.
    + intros k Hk. subst row db'. cbn in *. apply lookup_insert_ne.
      intros E. apply Hk. symmetry. exact E.
Qed.

(** ** Updates *)

Lemma dict_lookup_restrict (keys : list string) (key : string)
    (members : list (string * json)) :
  In key keys -> dict_lookup key (restrict keys members) = dict_lookup key members.
Proof.
  intros Hin. induction members as [|[k v] rest IH]; [reflexivity|].
  cbn [restrict List.filter fst dict_lookup].
  destruct (existsb (String.eqb k) keys) eqn:Hk.
  - cbn [dict_lookup]. fold (restrict keys rest). rewrite IH. reflexivity.
  - fold (restrict keys rest). rewrite IH.
    destruct (String.eqb k key) eqn:Heq; [|reflexivity].
    apply String.eqb_eq in Heq. subst k.
    assert (existsb (String.eqb key) keys = true) as Habs.
    { apply existsb_exists. exists key. split; [exact Hin | apply String.eqb_refl]. }
    congruence.
Qed.

Lemma supplied_restrict (keys : list string) (key : string)
    (members : list (string * json)) (old : json) :
  In key keys -> supplied key (restrict keys members) old = supplied key members old.
Proof. intros Hin. unfold supplied. rewrite dict_lookup_restrict by exact Hin. reflexivity. Qed.

(** C8. An update of an existing record with a non-empty field set sets
    each whitelisted field to the supplied value when its key is present
    and leaves it alone otherwise; keys outside the whitelist (among them
    [id] and [timestamp]) have no effect; the record keeps its id and its
    timestamp, and the 200 answer carries the updated record with the
    original timestamp. This is what is committed when the storage engine
    accepts the transaction (and, for a review, the supplied rating passes
    its check); otherwise the tables are left as they were. *)
Theorem update_applies_whitelist (ident : Z) (members : list (string * json))
    (db : database) :
  members <> [] ->
  (forall i, inquiries db !! ident = Some i ->
     let i' := patched_inquiry members i in
     let db' := with_inquiries (<[ident := i']> (inquiries db)) db in
     update_inquiry ident (JObj members) db =
       match flush_error db db' with
       | None => (Return (Response 200 (inquiry_json i')), db')
       | Some message =>
           (abort 500 ("Failed to update inquiry: " ++ exn_str (SQLAlchemyError message)),
            db)
       end
     /\ Inquiry.id i' = Inquiry.id i
     /\ Inquiry.timestamp i' = Inquiry.timestamp i
     /\ py_getitem (inquiry_json i') "timestamp"
          = Return (JStr (isoformat (Inquiry.timestamp i)))
     /\ patched_inquiry (restrict inquiry_fields members) i = i')
  /\
  (forall r, reviews db !! ident = Some r ->
     let r' := patched_review members r in
     let db' := with_reviews (<[ident := r']> (reviews db)) db in
     update_review ident (JObj members) db =
       match match dict_lookup "rating" members with
             | Some rating => chained_le 1 rating 5
             | None => Return true
             end
       with
       | Return true =>
           match flush_error db db' with
           | None => (Return (Response 200 (review_json r')), db')
           | Some message =>
               (abort 500 ("Failed to update review: " ++ exn_str (SQLAlchemyError message)),
                db)
           end
       | Return false =>
           (abort 500 ("Failed to update review: "
                       ++ exn_str (HTTPException 400 (Some "Rating must be between 1 and 5"))),
            db)
       | Raise e => (abort 500 ("Failed to update review: " ++ exn_str e), db)
       end
     /\ Review.id r' = Review.id r
     /\ Review.timestamp r' = Review.timestamp r
     /\ py_getitem (review_json r') "timestamp"
          = Return (JStr (isoformat (Review.timestamp r)))
     /\ patched_review (restrict review_fields members) r = r')
  /\
  (forall n, newsletters db !! ident = Some n ->
     let n' := patched_newsletter members n in
     let db' := with_newsletters (<[ident := n']> (newsletters db)) db in
     update_newsletter ident (JObj members) db =
       match flush_error db db' with
       | None => (Return (Response 200 (newsletter_json n')), db')
       | Some message =>
           (abort 500 ("Failed to update newsletter subscription: "
                       ++ exn_str (SQLAlchemyError message)),
            db)
       end
     /\ Newsletter.id n' = Newsletter.id n
     /\ Newsletter.timestamp n' = Newsletter.timestamp n
     /\ py_getitem (newsletter_json n') "timestamp"
          = Return (JStr (isoformat (Newsletter.timestamp n)))
     /\ patched_newsletter (restrict newsletter_fields members) n = n').
Proof.
  intros Hne. split; [|split].
  - intros i Hrow i' db'.
    split; [|split; [reflexivity|split; [reflexivity|split; [reflexivity|]]]].
    + unfold update_inquiry, after_checks.
      rewrite (truthy_obj _ Hne). cbn [negb].
      rewrite (get_or_404_found _ _ _ Hrow). cbn [bind].
      repeat (rewrite assign_if_present_obj; cbn [bind]).
      match goal with
      | |- context [commit db (with_inquiries (<[ident := ?x]> _) db)] =>
          assert (E : x = i')
            by (subst i'; unfold patched_inquiry, supplied; destruct i;
                cbn [Inquiry.id Inquiry.name Inquiry.email Inquiry.phone
                     Inquiry.company Inquiry.country Inquiry.job_title
                     Inquiry.job_details Inquiry.timestamp];
                destruct (dict_lookup "name" members),
                  (dict_lookup "email" members), (dict_lookup "phone" members),
                  (dict_lookup "company" members), (dict_lookup "country" members),
                  (dict_lookup "job_title" members),
                  (dict_lookup "job_details" members); reflexivity);
          rewrite E
      end.
      unfold commit. fold db'. destruct (flush_error db db'); reflexivity.
    + subst i'. unfold patched_inquiry, inquiry_fields.
      rewrite !supplied_restrict
        by (cbn [In]; repeat first [left; reflexivity | right]).
      reflexivity.
  - intros r Hrow r' db'.
    split; [|split; [reflexivity|split; [reflexivity|split; [reflexivity|]]]].
    + unfold update_review, after_checks.
      rewrite (truthy_obj _ Hne). cbn [negb].
      rewrite (get_or_404_found _ _ _ Hrow). cbn [bind].
      repeat (rewrite assign_if_present_obj; cbn [bind]).
      rewrite assign_rating_obj.
      destruct (dict_lookup "rating" members) as [rating|] eqn:Hrating.
      * destruct (chained_le 1 rating 5) as [[|]|e]; try reflexivity.
        cbn [bind].
        match goal with
        | |- context [commit db (with_reviews (<[ident := ?x]> _) db)] =>
            assert (E : x = r')
              by (subst r'; unfold patched_review, supplied; rewrite Hrating;
                  destruct r;
                  cbn [Review.id Review.name Review.company Review.review
                       Review.rating Review.timestamp];
                  destruct (dict_lookup "name" members),
                    (dict_lookup "company" members),
                    (dict_lookup "review" members); reflexivity);
            rewrite E
        end.
        unfold commit. fold db'. destruct (flush_error db db'); reflexivity.
      * cbn [bind].
        match goal with
        | |- context [commit db (with_reviews (<[ident := ?x]> _) db)] =>
            assert (E : x = r')
              by (subst r'; unfold patched_review, supplied; rewrite Hrating;
                  destruct r;
                  cbn [Review.id Review.name Review.company Review.review
                       Review.rating Review.timestamp];
                  destruct (dict_lookup "name" members),
                    (dict_lookup "company" members),
                    (dict_lookup "review" members); reflexivity);
            rewrite E
        end.
        unfold commit. fold db'. destruct (flush_error db db'); reflexivity.
    + subst r'. unfold patched_review, review_fields.
      rewrite !supplied_restrict
        by (cbn [In]; repeat first [left; reflexivity | right]).
      reflexivity.
  - intros n Hrow n' db'.
    split; [|split; [reflexivity|split; [reflexivity|split; [reflexivity|]]]].
    + unfold update_newsletter, after_checks.
      rewrite (truthy_obj _ Hne). cbn [negb].
      rewrite (get_or_404_found _ _ _ Hrow). cbn [bind].
      repeat (rewrite assign_if_present_obj; cbn [bind]).
      match goal with
      | |- context [commit db (with_newsletters (<[ident := ?x]> _) db)] =>
          assert (E : x = n')
            by (subst n'; unfold patched_newsletter, supplied; destruct n;
                cbn [Newsletter.id Newsletter.name Newsletter.email Newsletter.timestamp];
                destruct (dict_lookup "name" members),
                  (dict_lookup "email" members); reflexivity);
          rewrite E
      end.
      unfold commit. fold db'. destruct (flush_error db db'); reflexivity.
    + subst n'. unfold patched_newsletter, newsletter_fields.
      rewrite !supplied_restrict
        by (cbn [In]; repeat first [left; reflexivity | right]).
      reflexivity.
Qed.

(** ** The rating invariant *)

Lemma assign_if_present_keeps {R : Type} (proj : R -> json) (key : string) (data : json)
    (set : json -> R -> R) (obj obj' : R) :
  (forall v o, proj (set v o) = proj o) ->
  assign_if_present key data set obj = Return obj' ->
  proj obj' = proj obj.
Proof.
  intros Hset. unfold assign_if_present.
  destruct (py_in key data) as [[|]|e]; cbn [bind]; try discriminate.
  - destruct (py_getitem data key) as [v|e]; cbn [bind]; [|discriminate].
    intros [= <-]. apply Hset.
  - intros [= <-]. reflexivity.
Qed.

Lemma assign_rating_cases (data : json) (review review' : Review.t) :
  assign_rating data review = Return review' ->
  Review.rating review' = Review.rating review \/ in_range (Review.rating review').
Proof.
  unfold assign_rating.
  destruct (py_in "rating" data) as [[|]|e]; cbn [bind]; try discriminate.
  - destruct (py_getitem data "rating") as [rating|e]; cbn [bind]; [|discriminate].
    destruct (chained_le 1 rating 5) as [[|]|e] eqn:Hrange; cbn [bind negb];
      try discriminate.
    intros [= <-]. right. exact Hrange.
  - intros [= <-]. left. reflexivity.
Qed.

Lemma ratings_in_range_insert (db : database) (key : Z) (row : Review.t) :
  ratings_in_range db ->
  in_range (Review.rating row) ->
  ratings_in_range (with_reviews (<[key := row]> (reviews db)) db).
Proof.
  intros Hinv Hrow ident r. cbn [with_reviews reviews].
  intros Hlook. apply lookup_insert_Some in Hlook as [[_ <-] | [_ Hold]].
  - exact Hrow.
  - exact (Hinv _ _ Hold).
Qed.

(** What the range check of the review views does ensure. Among rows
    whose rating satisfies [1 <= rating <= 5], every review write keeps
    that true: a submission or an update either fails, and then the tables
    are exactly as before (no field of a partly assigned record is kept),
    or it commits a row whose rating passes the range check. A supplied
    rating that fails the check is always refused. *)
Theorem review_writes_keep_rating_in_range (now ident : Z) (data : json)
    (db : database) :
  ratings_in_range db ->
  (ratings_in_range (snd (submit_review now data db))
   /\ ((exists e, submit_review now data db = (Raise e, db))
       \/ (exists row,
             submit_review now data db
               = (Return (Response 201
                            (JObj [("message", JStr "Review submitted successfully")])),
                  with_reviews (<[Review.id row := row]> (reviews db)) db)
             /\ py_getitem data "rating" = Return (Review.rating row)
             /\ in_range (Review.rating row)
             /\ reviews db !! Review.id row = None)))
  /\
  (ratings_in_range (snd (update_review ident data db))
   /\ ((exists e, update_review ident data db = (Raise e, db))
       \/ (exists old new,
             reviews db !! ident = Some old
             /\ update_review ident data db
                  = (Return (Response 200 (review_json new)),
                     with_reviews (<[ident := new]> (reviews db)) db)
             /\ in_range (Review.rating new))))
  /\
  (forall members rating,
     data = JObj members ->
     dict_lookup "rating" members = Some rating ->
     ~ in_range rating ->
     (exists e, submit_review now data db = (Raise e, db))
     /\ (exists e, update_review ident data db = (Raise e, db))).
Proof.
  intros Hinv.
  assert (Hsubmit :
    (exists e, submit_review now data db = (Raise e, db))
    \/ (exists row,
          submit_review now data db
            = (Return (Response 201
                         (JObj [("message", JStr "Review submitted successfully")])),
               with_reviews (<[Review.id row := row]> (reviews db)) db)
          /\ py_getitem data "rating" = Return (Review.rating row)
          /\ in_range (Review.rating row)
          /\ reviews db !! Review.id row = None)).
  { unfold submit_review, after_checks, abort.
    destruct (negb (truthy data)); cbn [bind]; [left; eexists; reflexivity|].
    destruct (any_not_in ["name"; "company"; "review"; "rating"] data) as [[|]|e];
      cbn [bind]; try (left; eexists; reflexivity).
    destruct (py_getitem data "rating") as [rating|e]; cbn [bind];
      [|left; eexists; reflexivity].
    destruct (chained_le 1 rating 5) as [[|]|e] eqn:Hrange; cbn [bind negb];
      try (left; eexists; reflexivity).
    unfold try_rollback, abort.
    destruct (py_getitem data "name") as [name|e]; cbn [bind];
      [|left; eexists; reflexivity].
    destruct (py_getitem data "company") as [company|e]; cbn [bind];
      [|left; eexists; reflexivity].
    destruct (py_getitem data "review") as [review|e]; cbn [bind];
      [|left; eexists; reflexivity].
    unfold commit.
    match goal with
    | |- context [flush_error db ?p] => destruct (flush_error db p)
    end; cbn [bind]; [left; eexists; reflexivity|].
    right. eexists (Review.Build _ _ _ _ _ _).
    split; [reflexivity|]. split; [reflexivity|]. split; [exact Hrange|].
    apply fresh_key_unused. }
  assert (Hupdate :
    (exists e, update_review ident data db = (Raise e, db))
    \/ (exists old new,
          reviews db !! ident = Some old
          /\ update_review ident data db
               = (Return (Response 200 (review_json new)),
                  with_reviews (<[ident := new]> (reviews db)) db)
          /\ in_range (Review.rating new))).
  { unfold update_review, after_checks, try_rollback, get_or_404, abort.
    destruct (negb (truthy data)); [left; eexists; reflexivity|].
    destruct (reviews db !! ident) as [old|] eqn:Hold; cbn [bind];
      [|left; eexists; reflexivity].
    destruct (assign_if_present "name" data Review.set_name old) as [r1|e] eqn:H1;
      cbn [bind]; [|left; eexists; reflexivity].
    destruct (assign_if_present "company" data Review.set_company r1) as [r2|e] eqn:H2;
      cbn [bind]; [|left; eexists; reflexivity].
    destruct (assign_if_present "review" data Review.set_review r2) as [r3|e] eqn:H3;
      cbn [bind]; [|left; eexists; reflexivity].
    destruct (assign_rating data r3) as [r4|e] eqn:H4;
      cbn [bind]; [|left; eexists; reflexivity].
    unfold commit.
    match goal with
    | |- context [flush_error db ?p] => destruct (flush_error db p)
    end; cbn [bind]; [left; eexists; reflexivity|].
    right. exists old, r4. split; [reflexivity|]. split; [reflexivity|].
    apply (assign_if_present_keeps Review.rating) in H1; [|reflexivity].
    apply (assign_if_present_keeps Review.rating) in H2; [|reflexivity].
    apply (assign_if_present_keeps Review.rating) in H3; [|reflexivity].
    apply assign_rating_cases in H4 as [H4|H4]; [|exact H4].
    rewrite H4, H3, H2, H1. exact (Hinv _ _ Hold). }
  split; [|split].
  - split; [|exact Hsubmit].
    destruct Hsubmit as [[e ->] | (row & -> & _ & Hrange & _)]; cbn [snd];
      [exact Hinv | apply ratings_in_range_insert; assumption].
  - split; [|exact Hupdate].
    destruct Hupdate as [[e ->] | (old & new & _ & -> & Hrange)]; cbn [snd];
      [exact Hinv | apply ratings_in_range_insert; assumption].
  - intros members rating -> Hrating Hbad. split.
    + destruct Hsubmit as [H | (row & _ & Hget & Hrange & _)]; [exact H|].
      cbn [py_getitem] in Hget. rewrite Hrating in Hget.
      injection Hget as Heq. rewrite Heq in Hbad. contradiction.
    + unfold update_review, after_checks, try_rollback, get_or_404, abort.
      rewrite (truthy_obj _ (dict_lookup_nonempty _ _ _ Hrating)). cbn [negb].
      destruct (reviews db !! ident) as [old|]; cbn [bind]; [|eexists; reflexivity].
      repeat (rewrite assign_if_present_obj; cbn [bind]).
      rewrite assign_rating_obj, Hrating.
      destruct (chained_le 1 rating 5) as [[|]|e] eqn:Hrange;
        [contradiction | eexists; reflexivity | eexists; reflexivity].
Qed.

(** ** How the Python operators fail *)

Lemma py_in_raises (key : string) (data : json) (e : exn) :
  py_in key data = Raise e -> e = TypeError.
Proof. destruct data; cbn; congruence. Qed.

Lemma py_getitem_inv (data : json) (key : string) (v : json) :
  py_getitem data key = Return v ->
  exists members, data = JObj members /\ dict_lookup key members = Some v.
Proof.
  destruct data as [| | | | | |members]; cbn; try discriminate.
  destruct (dict_lookup key members) as [x|] eqn:Hx; [|discriminate].
  intros [= <-]. eauto.
Qed.

Lemma py_getitem_raises (data : json) (key : string) (e : exn) :
  py_getitem data key = Raise e -> e = TypeError \/ e = KeyError key.
Proof.
  destruct data as [| | | | | |members]; cbn; try (intros [= <-]; auto).
  destruct (dict_lookup key members); [discriminate | intros [= <-]; auto].
Qed.

Lemma py_get_inv (data : json) (key : string) (v : json) :
  py_get data key = Return v ->
  exists members, data = JObj members /\ v = field_or_null members key.
Proof.
  destruct data as [| | | | | |members]; cbn; try discriminate.
  intros [= <-]. eauto.
Qed.

Lemma chained_le_raises (lo hi : Z) (v : json) (e : exn) :
  chained_le lo v hi = Raise e -> e = TypeError.
Proof.
  unfold chained_le, int_le_py, py_le_int.
  destruct (as_number v); cbn [bind]; [|congruence].
  destruct (float_le _ _); congruence.
Qed.

Lemma fields_not_in_raises (fields : list string) (data : json) (e : exn) :
  fields_not_in fields data = Raise e -> e = TypeError.
Proof.
  induction fields as [|field rest IH]; cbn [fields_not_in]; [discriminate|].
  destruct (py_in field data) as [present|e'] eqn:Hin; cbn [bind].
  - destruct (fields_not_in rest data); cbn [bind]; [discriminate|].
    intros [= <-]. apply IH. reflexivity.
  - intros [= <-]. exact (py_in_raises _ _ _ Hin).
Qed.

Lemma any_not_in_raises (fields : list string) (data : json) (e : exn) :
  any_not_in fields data = Raise e -> e = TypeError.
Proof.
  induction fields as [|field rest IH]; cbn [any_not_in]; [discriminate|].
  destruct (py_in field data) as [[|]|e'] eqn:Hin; cbn [bind].
  - exact IH.
  - discriminate.
  - intros [= <-]. exact (py_in_raises _ _ _ Hin).
Qed.

Lemma commit_inv (db pending d : database) :
  commit db pending = Return d -> d = pending /\ flush_error db pending = None.
Proof.
  unfold commit. destruct (flush_error db pending); [discriminate|].
  intros [= <-]. auto.
Qed.

Lemma reported_status_respond (outcome : result response) :
  status (respond outcome) = reported_status outcome.
Proof. destruct outcome as [resp|[]]; reflexivity. Qed.

(** ** What each writing view can do *)

Lemma create_inquiry_outcomes (now : Z) (data : json) (db : database) :
  (exists e, create_inquiry now data db = (Raise e, db)
             /\ (reported_status (Raise e) = 400 \/ reported_status (Raise e) = 500))
  \/ (exists members,
        data = JObj members
        /\ create_inquiry now data db
           = (Return (Response 201
                        (JObj [("message", JStr "Inquiry submitted successfully")])),
              with_inquiries
                (<[fresh (dom (inquiries db)) :=
                     Inquiry.Build (fresh (dom (inquiries db)))
                       (field_or_null members "name") (field_or_null members "email")
                       (field_or_null members "phone") (field_or_null members "company")
                       (field_or_null members "country")
                       (field_or_null members "job_title")
                       (field_or_null members "job_details") now]> (inquiries db)) db)).
Proof.
  unfold create_inquiry, after_checks, abort.
  destruct (negb (truthy data)); cbn [bind];
    [left; eexists; split; [reflexivity | cbn; auto]|].
  destruct (fields_not_in ["name"; "email"] data) as [missing|e] eqn:Hm; cbn [bind].
  2: { apply fields_not_in_raises in Hm as ->.
       left; eexists; split; [reflexivity | cbn; auto]. }
  destruct missing; [|left; eexists; split; [reflexivity | cbn; auto]].
  unfold try_rollback, abort.
  destruct (py_get data "name") as [name|e] eqn:Hname; cbn [bind];
    [|left; eexists; split; [reflexivity | cbn; auto]].
  apply py_get_inv in Hname as (members & -> & ->). cbn [py_get bind].
  unfold commit.
  match goal with
  | |- context [flush_error db ?p] => destruct (flush_error db p)
  end; cbn [bind]; [left; eexists; split; [reflexivity | cbn; auto]|].
  right. exists members. split; reflexivity.
Qed.

Lemma create_newsletter_outcomes (now : Z) (data : json) (db : database) :
  (exists e, create_newsletter now data db = (Raise e, db)
             /\ (reported_status (Raise e) = 400 \/ reported_status (Raise e) = 500))
  \/ (exists members,
        data = JObj members
        /\ create_newsletter now data db
           = (Return (Response 201
                        (JObj [("message",
                                JStr "Newsletter subscription submitted successfully")])),
              with_newsletters
                (<[fresh (dom (newsletters db)) :=
                     Newsletter.Build (fresh (dom (newsletters db)))
                       (field_or_null members "name") (field_or_null members "email")
                       now]> (newsletters db)) db)).
Proof.
  unfold create_newsletter, after_checks, abort.
  destruct (negb (truthy data)); cbn [bind];
    [left; eexists; split; [reflexivity | cbn; auto]|].
  destruct (fields_not_in ["name"; "email"] data) as [missing|e] eqn:Hm; cbn [bind].
  2: { apply fields_not_in_raises in Hm as ->.
       left; eexists; split; [reflexivity | cbn; auto]. }
  destruct missing; [|left; eexists; split; [reflexivity | cbn; auto]].
  unfold try_rollback, abort.
  destruct (py_get data "name") as [name|e] eqn:Hname; cbn [bind];
    [|left; eexists; split; [reflexivity | cbn; auto]].
  apply py_get_inv in Hname as (members & -> & ->). cbn [py_get bind].
  unfold commit.
  match goal with
  | |- context [flush_error db ?p] => destruct (flush_error db p)
  end; cbn [bind]; [left; eexists; split; [reflexivity | cbn; auto]|].
  right. exists members. split; reflexivity.
Qed.

Lemma submit_review_outcomes (now : Z) (data : json) (db : database) :
  (exists e, submit_review now data db = (Raise e, db)
             /\ (reported_status (Raise e) = 400 \/ reported_status (Raise e) = 500))
  \/ (exists members name company review rating,
        data = JObj members
        /\ dict_lookup "name" members = Some name
        /\ dict_lookup "company" members = Some company
        /\ dict_lookup "review" members = Some review
        /\ dict_lookup "rating" members = Some rating
        /\ in_range rating
        /\ submit_review now data db
           = (Return (Response 201
                        (JObj [("message", JStr "Review submitted successfully")])),
              with_reviews
                (<[fresh (dom (reviews db)) :=
                     Review.Build (fresh (dom (reviews db))) name company review rating
                       now]> (reviews db)) db)).
Proof.
  unfold submit_review, after_checks, abort.
  assert (Hplain : forall e : exn,
            e = TypeError \/ (exists k, e = KeyError k) ->
            reported_status (@Raise response e) = 500)
    by (intros e [->|[k ->]]; reflexivity).
  destruct (negb (truthy data)); cbn [bind];
    [left; eexists; split; [reflexivity | cbn; auto]|].
  destruct (any_not_in ["name"; "company"; "review"; "rating"] data)
    as [[|]|e] eqn:Hany; cbn [bind];
    [left; eexists; split; [reflexivity | cbn; auto]| |].
  2: { apply any_not_in_raises in Hany as ->.
       left; eexists; split; [reflexivity | cbn; auto]. }
  destruct (py_getitem data "rating") as [rating|e] eqn:Hrating; cbn [bind].
  2: { left; eexists; split; [reflexivity|]. right. apply Hplain.
       apply py_getitem_raises in Hrating as [->| ->]; eauto. }
  apply py_getitem_inv in Hrating as (members & -> & Hrating).
  destruct (chained_le 1 rating 5) as [[|]|e] eqn:Hrange; cbn [bind negb].
  2: { left; eexists; split; [reflexivity | cbn; auto]. }
  2: { apply chained_le_raises in Hrange as ->.
       left; eexists; split; [reflexivity | cbn; auto]. }
  unfold try_rollback, abort. cbn [py_getitem].
  destruct (dict_lookup "name" members) as [name|] eqn:Hn; cbn [bind];
    [|left; eexists; split; [reflexivity | cbn; auto]].
  destruct (dict_lookup "company" members) as [company|] eqn:Hc; cbn [bind];
    [|left; eexists; split; [reflexivity | cbn; auto]].
  destruct (dict_lookup "review" members) as [review|] eqn:Hr; cbn [bind];
    [|left; eexists; split; [reflexivity | cbn; auto]].
  unfold commit.
  match goal with
  | |- context [flush_error db ?p] => destruct (flush_error db p)
  end; cbn [bind]; [left; eexists; split; [reflexivity | cbn; auto]|].
  right. exists members, name, company, review, rating.
  repeat (split; [first [reflexivity | assumption | exact Hrange]|]). reflexivity.
Qed.

Lemma assign_if_present_preserves {R A : Type} (proj : R -> A) (key : string)
    (data : json) (set : json -> R -> R) (obj obj' : R) :
  assign_if_present key data set obj = Return obj' ->
  (forall v o, proj (set v o) = proj o) ->
  proj obj' = proj obj.
Proof.
  intros Hrun Hset. revert Hrun. unfold assign_if_present.
  destruct (py_in key data) as [[|]|e]; cbn [bind]; try discriminate.
  - destruct (py_getitem data key) as [v|e]; cbn [bind]; [|discriminate].
    intros [= <-]. apply Hset.
  - intros [= <-]. reflexivity.
Qed.

Lemma assign_if_present_not_object {R : Type} (key : string) (data : json)
    (set : json -> R -> R) (obj obj' : R) :
  (forall members, data <> JObj members) ->
  assign_if_present key data set obj = Return obj' ->
  obj' = obj.
Proof.
  intros Hdata. unfold assign_if_present.
  destruct (py_in key data) as [[|]|e]; cbn [bind]; try discriminate.
  - destruct (py_getitem data key) as [v|e] eqn:Hget; cbn [bind]; [|discriminate].
    apply py_getitem_inv in Hget as (members & -> & _).
    destruct (Hdata members eq_refl).
  - intros [= <-]. reflexivity.
Qed.

Lemma assign_rating_preserves {A : Type} (proj : Review.t -> A) (data : json)
    (review review' : Review.t) :
  assign_rating data review = Return review' ->
  (forall v o, proj (Review.set_rating v o) = proj o) ->
  proj review' = proj review.
Proof.
  intros Hrun Hset. revert Hrun. unfold assign_rating.
  destruct (py_in "rating" data) as [[|]|e]; cbn [bind]; try discriminate.
  - destruct (py_getitem data "rating") as [rating|e]; cbn [bind]; [|discriminate].
    destruct (chained_le 1 rating 5) as [[|]|e]; cbn [bind negb]; try discriminate.
    intros [= <-]. apply Hset.
  - intros [= <-]. reflexivity.
Qed.

Lemma assign_rating_not_object (data : json) (review review' : Review.t) :
  (forall members, data <> JObj members) ->
  assign_rating data review = Return review' ->
  review' = review.
Proof.
  intros Hdata. unfold assign_rating.
  destruct (py_in "rating" data) as [[|]|e]; cbn [bind]; try discriminate.
  - destruct (py_getitem data "rating") as [rating|e] eqn:Hget; cbn [bind];
      [|discriminate].
    apply py_getitem_inv in Hget as (members & -> & _).
    destruct (Hdata members eq_refl).
  - intros [= <-]. reflexivity.
Qed.

Lemma delete_inquiry_outcomes (ident : Z) (db : database) :
  (exists d, delete_inquiry ident db = (abort 500 d, db))
  \/ (exists old,
        inquiries db !! ident = Some old
        /\ delete_inquiry ident db
           = (Return (Response 200
                        (JObj [("message",
                                JStr ("Inquiry " ++ pretty ident
                                      ++ " deleted successfully"))])),
              with_inquiries (delete ident (inquiries db)) db)).
Proof.
  unfold delete_inquiry, try_rollback, get_or_404, commit.
  destruct (inquiries db !! ident) as [old|]; cbn [bind]; [|left; eexists; reflexivity].
  match goal with
  | |- context [flush_error db ?p] => destruct (flush_error db p)
  end; cbn [bind]; [left; eexists; reflexivity|].
  right. exists old. split; reflexivity.
Qed.

Lemma delete_review_outcomes (ident : Z) (db : database) :
  (exists d, delete_review ident db = (abort 500 d, db))
  \/ (exists old,
        reviews db !! ident = Some old
        /\ delete_review ident db
           = (Return (Response 200
                        (JObj [("message",
                                JStr ("Review " ++ pretty ident
                                      ++ " deleted successfully"))])),
              with_reviews (delete ident (reviews db)) db)).
Proof.
  unfold delete_review, try_rollback, get_or_404, commit.
  destruct (reviews db !! ident) as [old|]; cbn [bind]; [|left; eexists; reflexivity].
  match goal with
  | |- context [flush_error db ?p] => destruct (flush_error db p)
  end; cbn [bind]; [left; eexists; reflexivity|].
  right. exists old. split; reflexivity.
Qed.

Lemma delete_newsletter_outcomes (ident : Z) (db : database) :
  (exists d, delete_newsletter ident db = (abort 500 d, db))
  \/ (exists old,
        newsletters db !! ident = Some old
        /\ delete_newsletter ident db
           = (Return (Response 200
                        (JObj [("message",
                                JStr ("Newsletter subscription " ++ pretty ident
                                      ++ " deleted successfully"))])),
              with_newsletters (delete ident (newsletters db)) db)).
Proof.
  unfold delete_newsletter, try_rollback, get_or_404, commit.
  destruct (newsletters db !! ident) as [old|]; cbn [bind];
    [|left; eexists; reflexivity].
  match goal with
  | |- context [flush_error db ?p] => destruct (flush_error db p)
  end; cbn [bind]; [left; eexists; reflexivity|].
  right. exists old. split; reflexivity.
Qed.

Lemma update_inquiry_outcomes (ident : Z) (data : json) (db : database) :
  update_inquiry ident data db = (abort 400 "No data provided", db)
  \/ (exists d, update_inquiry ident data db = (abort 500 d, db))
  \/ (exists old new,
        inquiries db !! ident = Some old
        /\ Inquiry.id new = Inquiry.id old
        /\ Inquiry.timestamp new = Inquiry.timestamp old
        /\ ((forall members, data <> JObj members) -> new = old)
        /\ update_inquiry ident data db
           = (Return (Response 200 (inquiry_json new)),
              with_inquiries (<[ident := new]> (inquiries db)) db)).
Proof.
  unfold update_inquiry, after_checks, try_rollback, get_or_404, commit.
  destruct (negb (truthy data)); [left; reflexivity|]. right.
  destruct (inquiries db !! ident) as [old|]; cbn [bind]; [|left; eexists; reflexivity].
  destruct (assign_if_present "name" data Inquiry.set_name old) as [r1|e] eqn:H1;
    cbn [bind]; [|left; eexists; reflexivity].
  destruct (assign_if_present "email" data Inquiry.set_email r1) as [r2|e] eqn:H2;
    cbn [bind]; [|left; eexists; reflexivity].
  destruct (assign_if_present "phone" data Inquiry.set_phone r2) as [r3|e] eqn:H3;
    cbn [bind]; [|left; eexists; reflexivity].
  destruct (assign_if_present "company" data Inquiry.set_company r3) as [r4|e] eqn:H4;
    cbn [bind]; [|left; eexists; reflexivity].
  destruct (assign_if_present "country" data Inquiry.set_country r4) as [r5|e] eqn:H5;
    cbn [bind]; [|left; eexists; reflexivity].
  destruct (assign_if_present "job_title" data Inquiry.set_job_title r5) as [r6|e] eqn:H6;
    cbn [bind]; [|left; eexists; reflexivity].
  destruct (assign_if_present "job_details" data Inquiry.set_job_details r6)
    as [r7|e] eqn:H7; cbn [bind]; [|left; eexists; reflexivity].
  match goal with
  | |- context [flush_error db ?p] => destruct (flush_error db p)
  end; cbn [bind]; [left; eexists; reflexivity|].
  right. exists old, r7. split; [reflexivity|].
  split; [|split; [|split; [|reflexivity]]].
  - rewrite (assign_if_present_preserves Inquiry.id _ _ _ _ _ H7 (fun _ _ => eq_refl)),
      (assign_if_present_preserves Inquiry.id _ _ _ _ _ H6 (fun _ _ => eq_refl)),
      (assign_if_present_preserves Inquiry.id _ _ _ _ _ H5 (fun _ _ => eq_refl)),
      (assign_if_present_preserves Inquiry.id _ _ _ _ _ H4 (fun _ _ => eq_refl)),
      (assign_if_present_preserves Inquiry.id _ _ _ _ _ H3 (fun _ _ => eq_refl)),
      (assign_if_present_preserves Inquiry.id _ _ _ _ _ H2 (fun _ _ => eq_refl)).
    exact (assign_if_present_preserves Inquiry.id _ _ _ _ _ H1 (fun _ _ => eq_refl)).
  - rewrite
      (assign_if_present_preserves Inquiry.timestamp _ _ _ _ _ H7 (fun _ _ => eq_refl)),
      (assign_if_present_preserves Inquiry.timestamp _ _ _ _ _ H6 (fun _ _ => eq_refl)),
      (assign_if_present_preserves Inquiry.timestamp _ _ _ _ _ H5 (fun _ _ => eq_refl)),
      (assign_if_present_preserves Inquiry.timestamp _ _ _ _ _ H4 (fun _ _ => eq_refl)),
      (assign_if_present_preserves Inquiry.timestamp _ _ _ _ _ H3 (fun _ _ => eq_refl)),
      (assign_if_present_preserves Inquiry.timestamp _ _ _ _ _ H2 (fun _ _ => eq_refl)).
    exact (assign_if_present_preserves Inquiry.timestamp _ _ _ _ _
             H1 (fun _ _ => eq_refl)).
  - intros Hdata.
    rewrite (assign_if_present_not_object _ _ _ _ _ Hdata H7),
      (assign_if_present_not_object _ _ _ _ _ Hdata H6),
      (assign_if_present_not_object _ _ _ _ _ Hdata H5),
      (assign_if_present_not_object _ _ _ _ _ Hdata H4),
      (assign_if_present_not_object _ _ _ _ _ Hdata H3),
      (assign_if_present_not_object _ _ _ _ _ Hdata H2).
    exact (assign_if_present_not_object _ _ _ _ _ Hdata H1).
Qed.

Lemma update_review_outcomes (ident : Z) (data : json) (db : database) :
  update_review ident data db = (abort 400 "No data provided", db)
  \/ (exists d, update_review ident data db = (abort 500 d, db))
  \/ (exists old new,
        reviews db !! ident = Some old
        /\ Review.id new = Review.id old
        /\ Review.timestamp new = Review.timestamp old
        /\ ((forall members, data <> JObj members) -> new = old)
        /\ update_review ident data db
           = (Return (Response 200 (review_json new)),
              with_reviews (<[ident := new]> (reviews db)) db)).
Proof.
  unfold update_review, after_checks, try_rollback, get_or_404, commit.
  destruct (negb (truthy data)); [left; reflexivity|]. right.
  destruct (reviews db !! ident) as [old|]; cbn [bind]; [|left; eexists; reflexivity].
  destruct (assign_if_present "name" data Review.set_name old) as [r1|e] eqn:H1;
    cbn [bind]; [|left; eexists; reflexivity].
  destruct (assign_if_present "company" data Review.set_company r1) as [r2|e] eqn:H2;
    cbn [bind]; [|left; eexists; reflexivity].
  destruct (assign_if_present "review" data Review.set_review r2) as [r3|e] eqn:H3;
    cbn [bind]; [|left; eexists; reflexivity].
  destruct (assign_rating data r3) as [r4|e] eqn:H4;
    cbn [bind]; [|left; eexists; reflexivity].
  match goal with
  | |- context [flush_error db ?p] => destruct (flush_error db p)
  end; cbn [bind]; [left; eexists; reflexivity|].
  right. exists old, r4. split; [reflexivity|].
  split; [|split; [|split; [|reflexivity]]].
  - rewrite (assign_rating_preserves Review.id _ _ _ H4 (fun _ _ => eq_refl)),
      (assign_if_present_preserves Review.id _ _ _ _ _ H3 (fun _ _ => eq_refl)),
      (assign_if_present_preserves Review.id _ _ _ _ _ H2 (fun _ _ => eq_refl)).
    exact (assign_if_present_preserves Review.id _ _ _ _ _ H1 (fun _ _ => eq_refl)).
  - rewrite (assign_rating_preserves Review.timestamp _ _ _ H4 (fun _ _ => eq_refl)),
      (assign_if_present_preserves Review.timestamp _ _ _ _ _ H3 (fun _ _ => eq_refl)),
      (assign_if_present_preserves Review.timestamp _ _ _ _ _ H2 (fun _ _ => eq_refl)).
    exact (assign_if_present_preserves Review.timestamp _ _ _ _ _
             H1 (fun _ _ => eq_refl)).
  - intros Hdata.
    rewrite (assign_rating_not_object _ _ _ Hdata H4),
      (assign_if_present_not_object _ _ _ _ _ Hdata H3),
      (assign_if_present_not_object _ _ _ _ _ Hdata H2).
    exact (assign_if_present_not_object _ _ _ _ _ Hdata H1).
Qed.

Lemma update_newsletter_outcomes (ident : Z) (data : json) (db : database) :
  update_newsletter ident data db = (abort 400 "No data provided", db)
  \/ (exists d, update_newsletter ident data db = (abort 500 d, db))
  \/ (exists old new,
        newsletters db !! ident = Some old
        /\ Newsletter.id new = Newsletter.id old
        /\ Newsletter.timestamp new = Newsletter.timestamp old
        /\ ((forall members, data <> JObj members) -> new = old)
        /\ update_newsletter ident data db
           = (Return (Response 200 (newsletter_json new)),
              with_newsletters (<[ident := new]> (newsletters db)) db)).
Proof.
  unfold update_newsletter, after_checks, try_rollback, get_or_404, commit.
  destruct (negb (truthy data)); [left; reflexivity|]. right.
  destruct (newsletters db !! ident) as [old|]; cbn [bind];
    [|left; eexists; reflexivity].
  destruct (assign_if_present "name" data Newsletter.set_name old) as [r1|e] eqn:H1;
    cbn [bind]; [|left; eexists; reflexivity].
  destruct (assign_if_present "email" data Newsletter.set_email r1) as [r2|e] eqn:H2;
    cbn [bind]; [|left; eexists; reflexivity].
  match goal with
  | |- context [flush_error db ?p] => destruct (flush_error db p)
  end; cbn [bind]; [left; eexists; reflexivity|].
  right. exists old, r2. split; [reflexivity|].
  split; [|split; [|split; [|reflexivity]]].
  - rewrite (assign_if_present_preserves Newsletter.id _ _ _ _ _ H2 (fun _ _ => eq_refl)).
    exact (assign_if_present_preserves Newsletter.id _ _ _ _ _ H1 (fun _ _ => eq_refl)).
  - rewrite (assign_if_present_preserves Newsletter.timestamp _ _ _ _ _
               H2 (fun _ _ => eq_refl)).
    exact (assign_if_present_preserves Newsletter.timestamp _ _ _ _ _
             H1 (fun _ _ => eq_refl)).
  - intros Hdata.
    rewrite (assign_if_present_not_object _ _ _ _ _ Hdata H2).
    exact (assign_if_present_not_object _ _ _ _ _ Hdata H1).
Qed.

(** ** Independence of the entities *)

(** X5. Whatever the request and whatever its outcome, a writing view leaves
    the two tables of the other entities exactly as they were. *)
Theorem writes_stay_in_their_table (now ident : Z) (data : json) (db : database) :
  (forall db',
     db' = snd (create_inquiry now data db) \/ db' = snd (update_inquiry ident data db)
     \/ db' = snd (delete_inquiry ident db) ->
     reviews db' = reviews db /\ newsletters db' = newsletters db)
  /\ (forall db',
        db' = snd (submit_review now data db) \/ db' = snd (update_review ident data db)
        \/ db' = snd (delete_review ident db) ->
        inquiries db' = inquiries db /\ newsletters db' = newsletters db)
  /\ (forall db',
        db' = snd (create_newsletter now data db)
        \/ db' = snd (update_newsletter ident data db)
        \/ db' = snd (delete_newsletter ident db) ->
        inquiries db' = inquiries db /\ reviews db' = reviews db).
Proof.
  split; [|split]; intros db' [-> | [-> | ->]].
  - destruct (create_inquiry_outcomes now data db) as [(e & -> & _) | (m & _ & ->)];
      split; reflexivity.
  - destruct (update_inquiry_outcomes ident data db)
      as [-> | [[d ->] | (old & new & _ & _ & _ & _ & ->)]]; split; reflexivity.
  - destruct (delete_inquiry_outcomes ident db) as [[d ->] | (old & _ & ->)];
      split; reflexivity.
  - destruct (submit_review_outcomes now data db)
      as [(e & -> & _) | (m & n & c & r & g & _ & _ & _ & _ & _ & _ & ->)];
      split; reflexivity.
  - destruct (update_review_outcomes ident data db)
      as [-> | [[d ->] | (old & new & _ & _ & _ & _ & ->)]]; split; reflexivity.
  - destruct (delete_review_outcomes ident db) as [[d ->] | (old & _ & ->)];
      split; reflexivity.
  - destruct (create_newsletter_outcomes now data db) as [(e & -> & _) | (m & _ & ->)];
      split; reflexivity.
  - destruct (update_newsletter_outcomes ident data db)
      as [-> | [[d ->] | (old & new & _ & _ & _ & _ & ->)]]; split; reflexivity.
  - destruct (delete_newsletter_outcomes ident db) as [[d ->] | (old & _ & ->)];
      split; reflexivity.
Qed.

(** X6. Within its own table a writing view touches one row at most: a create
    keeps every row that was there, with its content; an update or a
    delete of [ident] leaves every row under another key as it was. This
    holds for every request and every outcome. *)
Theorem writes_touch_one_row (now ident : Z) (data : json) (db : database) :
  (forall k row, inquiries db !! k = Some row ->
     inquiries (snd (create_inquiry now data db)) !! k = Some row)
  /\ (forall k row, reviews db !! k = Some row ->
        reviews (snd (submit_review now data db)) !! k = Some row)
  /\ (forall k row, newsletters db !! k = Some row ->
        newsletters (snd (create_newsletter now data db)) !! k = Some row)
  /\ (forall k, k <> ident ->
        inquiries (snd (update_inquiry ident data db)) !! k = inquiries db !! k
        /\ inquiries (snd (delete_inquiry ident db)) !! k = inquiries db !! k
        /\ reviews (snd (update_review ident data db)) !! k = reviews db !! k
        /\ reviews (snd (delete_review ident db)) !! k = reviews db !! k
        /\ newsletters (snd (update_newsletter ident data db)) !! k = newsletters db !! k
        /\ newsletters (snd (delete_newsletter ident db)) !! k = newsletters db !! k).
Proof.
  assert (Hkeep : forall (R : Type) (table : gmap Z R) (k : Z) (row new : R),
            table !! k = Some row ->
            <[fresh (dom table) := new]> table !! k = Some row).
  { intros R table k row new Hrow. rewrite lookup_insert_ne; [exact Hrow|].
    intros <-. rewrite fresh_key_unused in Hrow. discriminate. }
  split; [|split; [|split]].
  - intros k row Hrow.
    destruct (create_inquiry_outcomes now data db) as [(e & -> & _) | (m & _ & ->)];
      cbn; [exact Hrow | apply Hkeep, Hrow].
  - intros k row Hrow.
    destruct (submit_review_outcomes now data db)
      as [(e & -> & _) | (m & n & c & r & g & _ & _ & _ & _ & _ & _ & ->)];
      cbn; [exact Hrow | apply Hkeep, Hrow].
  - intros k row Hrow.
    destruct (create_newsletter_outcomes now data db) as [(e & -> & _) | (m & _ & ->)];
      cbn; [exact Hrow | apply Hkeep, Hrow].
  - intros k Hk. repeat split.
    + destruct (update_inquiry_outcomes ident data db)
        as [-> | [[d ->] | (old & new & _ & _ & _ & _ & ->)]]; cbn;
        [reflexivity | reflexivity | apply lookup_insert_ne; congruence].
    + destruct (delete_inquiry_outcomes ident db) as [[d ->] | (old & _ & ->)]; cbn;
        [reflexivity | apply lookup_delete_ne; congruence].
    + destruct (update_review_outcomes ident data db)
        as [-> | [[d ->] | (old & new & _ & _ & _ & _ & ->)]]; cbn;
        [reflexivity | reflexivity | apply lookup_insert_ne; congruence].
    + destruct (delete_review_outcomes ident db) as [[d ->] | (old & _ & ->)]; cbn;
        [reflexivity | apply lookup_delete_ne; congruence].
    + destruct (update_newsletter_outcomes ident data db)
        as [-> | [[d ->] | (old & new & _ & _ & _ & _ & ->)]]; cbn;
        [reflexivity | reflexivity | apply lookup_insert_ne; congruence].
    + destruct (delete_newsletter_outcomes ident db) as [[d ->] | (old & _ & ->)]; cbn;
        [reflexivity | apply lookup_delete_ne; congruence].
Qed.

(** ** Status codes *)

Lemma guarded_status (f : database -> result response * database)
    (auth_header : option string) (db : database) (codes : list Z) :
  In (reported_status (fst (f db))) codes ->
  In (reported_status (fst (admin_required f auth_header db))) (401 :: 403 :: codes).
Proof.
  intros Hview. rewrite admin_required_unfolded.
  destruct (first_failed_check auth_header) as [r|].
  - destruct r; cbn; auto.
  - right. right. exact Hview.
Qed.

(** X7. Each view answers with one of a few status codes. For the views
    that read a body this holds for every body that [request.get_json()]
    has parsed (a request whose body it cannot parse is answered by Flask
    before the view's own code runs): 201, 400 or 500 for the public
    submissions and 200, 400 or 500 for an update. For the views that read
    no body it holds for every request: 200 or 500 for a listing and for a
    delete. Behind the guard 401 and 403 are added. Among the answers of
    the views' own code 404 never occurs. *)
Theorem views_answer_a_fixed_set_of_codes (auth_header : option string) (now ident : Z)
    (data : json) (db : database) :
  (In (reported_status (fst (create_inquiry now data db))) [201; 400; 500]
   /\ In (reported_status (fst (submit_review now data db))) [201; 400; 500]
   /\ In (reported_status (fst (create_newsletter now data db))) [201; 400; 500]
   /\ In (reported_status (fst (get_reviews db))) [200; 500])
  /\ (In (reported_status (fst (admin_required get_inquiries auth_header db)))
        [401; 403; 200; 500]
      /\ In (reported_status (fst (admin_required get_newsletters auth_header db)))
           [401; 403; 200; 500]
      /\ In (reported_status (fst (admin_required (delete_inquiry ident) auth_header db)))
           [401; 403; 200; 500]
      /\ In (reported_status (fst (admin_required (delete_review ident) auth_header db)))
           [401; 403; 200; 500]
      /\ In (reported_status
               (fst (admin_required (delete_newsletter ident) auth_header db)))
           [401; 403; 200; 500])
  /\ (In (reported_status
            (fst (admin_required (update_inquiry ident data) auth_header db)))
        [401; 403; 200; 400; 500]
      /\ In (reported_status
               (fst (admin_required (update_review ident data) auth_header db)))
           [401; 403; 200; 400; 500]
      /\ In (reported_status
               (fst (admin_required (update_newsletter ident data) auth_header db)))
           [401; 403; 200; 400; 500]).
Proof.
  assert (Hlist : forall prefix body,
            (forall resp, body = Return resp -> status resp = 200) ->
            In (reported_status (fst (try_listing db prefix body))) [200; 500]).
  { intros prefix [resp|e] Hbody; cbn; [left; symmetry; exact (Hbody _ eq_refl) | auto]. }
  assert (Hquery : forall (R : Type) (ts : R -> Z) (table : gmap Z R)
                     (to_json : R -> json) resp,
            (do rows <- query_latest_first ts table db in
             Return (Response 200 (JArr (to_json <$> rows)))) = Return resp ->
            status resp = 200).
  { intros R ts table to_json resp. unfold query_latest_first.
    destruct (query_error db); cbn [bind]; [discriminate|]. intros [= <-]. reflexivity. }
  split; [|split].
  - repeat split.
    + destruct (create_inquiry_outcomes now data db)
        as [(e & -> & [H|H]) | (m & _ & ->)]; cbn [fst]; [rewrite H ..|]; cbn; auto.
    + destruct (submit_review_outcomes now data db)
        as [(e & -> & [H|H]) | (m & n & c & r & g & _ & _ & _ & _ & _ & _ & ->)];
        cbn [fst]; [rewrite H ..|]; cbn; auto.
    + destruct (create_newsletter_outcomes now data db)
        as [(e & -> & [H|H]) | (m & _ & ->)]; cbn [fst]; [rewrite H ..|]; cbn; auto.
    + apply Hlist. apply Hquery.
  - repeat split; apply guarded_status.
    + apply Hlist. apply Hquery.
    + apply Hlist. apply Hquery.
    + destruct (delete_inquiry_outcomes ident db) as [[d ->] | (old & _ & ->)];
        cbn; auto.
    + destruct (delete_review_outcomes ident db) as [[d ->] | (old & _ & ->)];
        cbn; auto.
    + destruct (delete_newsletter_outcomes ident db) as [[d ->] | (old & _ & ->)];
        cbn; auto.
  - repeat split; apply guarded_status.
    + destruct (update_inquiry_outcomes ident data db)
        as [-> | [[d ->] | (old & new & _ & _ & _ & _ & ->)]]; cbn; auto.
    + destruct (update_review_outcomes ident data db)
        as [-> | [[d ->] | (old & new & _ & _ & _ & _ & ->)]]; cbn; auto.
    + destruct (update_newsletter_outcomes ident data db)
        as [-> | [[d ->] | (old & new & _ & _ & _ & _ & ->)]]; cbn; auto.
Qed.

(** ** Bodies that are not objects *)

Lemma with_inquiries_same (db : database) (old : Inquiry.t) (ident : Z) :
  inquiries db !! ident = Some old ->
  with_inquiries (<[ident := old]> (inquiries db)) db = db.
Proof. intros H. rewrite (insert_id _ _ _ H). destruct db; reflexivity. Qed.

Lemma with_reviews_same (db : database) (old : Review.t) (ident : Z) :
  reviews db !! ident = Some old ->
  with_reviews (<[ident := old]> (reviews db)) db = db.
Proof. intros H. rewrite (insert_id _ _ _ H). destruct db; reflexivity. Qed.

Lemma with_newsletters_same (db : database) (old : Newsletter.t) (ident : Z) :
  newsletters db !! ident = Some old ->
  with_newsletters (<[ident := old]> (newsletters db)) db = db.
Proof. intros H. rewrite (insert_id _ _ _ H). destruct db; reflexivity. Qed.

(** X8. A request body that is valid JSON but not an object (an array, a
    string, a number, [true]) never changes a table: the create views
    refuse it, and an update view either refuses it or commits the record
    unchanged. *)
Theorem non_object_body_changes_nothing (now ident : Z) (data : json) (db : database) :
  (forall members, data <> JObj members) ->
  ((exists e, create_inquiry now data db = (Raise e, db))
   /\ (exists e, submit_review now data db = (Raise e, db))
   /\ (exists e, create_newsletter now data db = (Raise e, db)))
  /\ snd (update_inquiry ident data db) = db
  /\ snd (update_review ident data db) = db
  /\ snd (update_newsletter ident data db) = db.
Proof.
  intros Hdata. split; [split; [|split]|split; [|split]].
  - destruct (create_inquiry_outcomes now data db) as [(e & H & _) | (m & -> & _)];
      [eauto | destruct (Hdata m eq_refl)].
  - destruct (submit_review_outcomes now data db) as [(e & H & _) | (m & H)];
      [eauto | destruct H as (_ & _ & _ & _ & -> & _); destruct (Hdata m eq_refl)].
  - destruct (create_newsletter_outcomes now data db) as [(e & H & _) | (m & -> & _)];
      [eauto | destruct (Hdata m eq_refl)].
  - destruct (update_inquiry_outcomes ident data db)
      as [-> | [[d ->] | (old & new & Hold & _ & _ & Hsame & ->)]]; cbn [snd];
      [reflexivity | reflexivity |].
    rewrite (Hsame Hdata). apply with_inquiries_same, Hold.
  - destruct (update_review_outcomes ident data db)
      as [-> | [[d ->] | (old & new & Hold & _ & _ & Hsame & ->)]]; cbn [snd];
      [reflexivity | reflexivity |].
    rewrite (Hsame Hdata). apply with_reviews_same, Hold.
  - destruct (update_newsletter_outcomes ident data db)
      as [-> | [[d ->] | (old & new & Hold & _ & _ & Hsame & ->)]]; cbn [snd];
      [reflexivity | reflexivity |].
    rewrite (Hsame Hdata). apply with_newsletters_same, Hold.
Qed.

(** ** Updates with an object body *)

Lemma update_inquiry_object (ident : Z) (members : list (string * json))
    (old : Inquiry.t) (db : database) :
  members <> [] ->
  inquiries db !! ident = Some old ->
  update_inquiry ident (JObj members) db =
  match flush_error db
          (with_inquiries (<[ident := patched_inquiry members old]> (inquiries db)) db)
  with
  | None =>
      (Return (Response 200 (inquiry_json (patched_inquiry members old))),
       with_inquiries (<[ident := patched_inquiry members old]> (inquiries db)) db)
  | Some message =>
      (abort 500 ("Failed to update inquiry: " ++ exn_str (SQLAlchemyError message)), db)
  end.
Proof.
  intros Hne Hrow. unfold update_inquiry, after_checks.
  rewrite (truthy_obj _ Hne). cbn [negb].
  rewrite (get_or_404_found _ _ _ Hrow). cbn [bind].
  repeat (rewrite assign_if_present_obj; cbn [bind]).
  match goal with
  | |- context [commit db (with_inquiries (<[ident := ?x]> _) db)] =>
      replace x with (patched_inquiry members old)
        by (unfold patched_inquiry, supplied; destruct old;
            cbn [Inquiry.id Inquiry.name Inquiry.email Inquiry.phone
                 Inquiry.company Inquiry.country Inquiry.job_title
                 Inquiry.job_details Inquiry.timestamp];
            destruct (dict_lookup "name" members),
              (dict_lookup "email" members), (dict_lookup "phone" members),
              (dict_lookup "company" members), (dict_lookup "country" members),
              (dict_lookup "job_title" members),
              (dict_lookup "job_details" members); reflexivity)
  end.
  unfold commit.
  match goal with
  | |- context [flush_error db ?p] => destruct (flush_error db p)
  end; reflexivity.
Qed.

Lemma update_review_object (ident : Z) (members : list (string * json))
    (old : Review.t) (db : database) :
  members <> [] ->
  reviews db !! ident = Some old ->
  update_review ident (JObj members) db =
  match match dict_lookup "rating" members with
        | Some rating => chained_le 1 rating 5
        | None => Return true
        end
  with
  | Return true =>
      match flush_error db
              (with_reviews (<[ident := patched_review members old]> (reviews db)) db)
      with
      | None =>
          (Return (Response 200 (review_json (patched_review members old))),
           with_reviews (<[ident := patched_review members old]> (reviews db)) db)
      | Some message =>
          (abort 500 ("Failed to update review: " ++ exn_str (SQLAlchemyError message)),
           db)
      end
  | Return false =>
      (abort 500 ("Failed to update review: "
                  ++ exn_str (HTTPException 400 (Some "Rating must be between 1 and 5"))),
       db)
  | Raise e => (abort 500 ("Failed to update review: " ++ exn_str e), db)
  end.
Proof.
  intros Hne Hrow. unfold update_review, after_checks.
  rewrite (truthy_obj _ Hne). cbn [negb].
  rewrite (get_or_404_found _ _ _ Hrow). cbn [bind].
  repeat (rewrite assign_if_present_obj; cbn [bind]).
  rewrite assign_rating_obj.
  assert (E : forall r0 : Review.t,
            r0 = match dict_lookup "review" members with
                 | Some v => Review.set_review v
                               match dict_lookup "company" members with
                               | Some v0 => Review.set_company v0
                                              match dict_lookup "name" members with
                                              | Some v1 => Review.set_name v1 old
                                              | None => old
                                              end
                               | None => match dict_lookup "name" members with
                                         | Some v1 => Review.set_name v1 old
                                         | None => old
                                         end
                               end
                 | None => match dict_lookup "company" members with
                           | Some v0 => Review.set_company v0
                                          match dict_lookup "name" members with
                                          | Some v1 => Review.set_name v1 old
                                          | None => old
                                          end
                           | None => match dict_lookup "name" members with
                                     | Some v1 => Review.set_name v1 old
                                     | None => old
                                     end
                           end
                 end ->
            match dict_lookup "rating" members with
            | Some rating => Review.set_rating rating r0
            | None => r0
            end = patched_review members old).
  { intros r0 ->. unfold patched_review, supplied. destruct old.
    cbn [Review.id Review.name Review.company Review.review Review.rating
         Review.timestamp].
    destruct (dict_lookup "name" members), (dict_lookup "company" members),
      (dict_lookup "review" members), (dict_lookup "rating" members); reflexivity. }
  destruct (dict_lookup "rating" members) as [rating|] eqn:Hlook.
  - destruct (chained_le 1 rating 5) as [[|]|e]; try reflexivity.
    cbn [bind]. rewrite (E _ eq_refl). unfold commit.
    match goal with
    | |- context [flush_error db ?p] => destruct (flush_error db p)
    end; reflexivity.
  - cbn [bind]. rewrite (E _ eq_refl). unfold commit.
    match goal with
    | |- context [flush_error db ?p] => destruct (flush_error db p)
    end; reflexivity.
Qed.

Lemma update_newsletter_object (ident : Z) (members : list (string * json))
    (old : Newsletter.t) (db : database) :
  members <> [] ->
  newsletters db !! ident = Some old ->
  update_newsletter ident (JObj members) db =
  match flush_error db
          (with_newsletters (<[ident := patched_newsletter members old]> (newsletters db))
             db)
  with
  | None =>
      (Return (Response 200 (newsletter_json (patched_newsletter members old))),
       with_newsletters (<[ident := patched_newsletter members old]> (newsletters db)) db)
  | Some message =>
      (abort 500 ("Failed to update newsletter subscription: "
                  ++ exn_str (SQLAlchemyError message)), db)
  end.
Proof.
  intros Hne Hrow. unfold update_newsletter, after_checks.
  rewrite (truthy_obj _ Hne). cbn [negb].
  rewrite (get_or_404_found _ _ _ Hrow). cbn [bind].
  repeat (rewrite assign_if_present_obj; cbn [bind]).
  match goal with
  | |- context [commit db (with_newsletters (<[ident := ?x]> _) db)] =>
      replace x with (patched_newsletter members old)
        by (unfold patched_newsletter, supplied; destruct old;
            cbn [Newsletter.id Newsletter.name Newsletter.email Newsletter.timestamp];
            destruct (dict_lookup "name" members), (dict_lookup "email" members);
            reflexivity)
  end.
  unfold commit.
  match goal with
  | |- context [flush_error db ?p] => destruct (flush_error db p)
  end; reflexivity.
Qed.

Lemma supplied_absent (key : string) (members : list (string * json)) (old : json) :
  absent members key = true -> supplied key members old = old.
Proof.
  unfold absent, supplied.
  destruct (dict_lookup key members); [discriminate | reflexivity].
Qed.

Lemma supplied_twice (key : string) (members : list (string * json)) (old : json) :
  supplied key members (supplied key members old) = supplied key members old.
Proof. unfold supplied. destruct (dict_lookup key members); reflexivity. Qed.

(** X9. An update whose body has none of the entity's field names (only keys
    the view does not know, such as [id] or [colour]) is accepted all the
    same: when the storage engine commits, the answer is 200 with the
    stored record and the tables are exactly as before. *)
Theorem update_without_known_keys_changes_nothing (ident : Z)
    (members : list (string * json)) (db : database) :
  members <> [] ->
  flush_error db db = None ->
  (forall i, existsb (fun k => negb (absent members k)) inquiry_fields = false ->
     inquiries db !! ident = Some i ->
     update_inquiry ident (JObj members) db = (Return (Response 200 (inquiry_json i)), db))
  /\ (forall r, existsb (fun k => negb (absent members k)) review_fields = false ->
        reviews db !! ident = Some r ->
        update_review ident (JObj members) db
          = (Return (Response 200 (review_json r)), db))
  /\ (forall n, existsb (fun k => negb (absent members k)) newsletter_fields = false ->
        newsletters db !! ident = Some n ->
        update_newsletter ident (JObj members) db
          = (Return (Response 200 (newsletter_json n)), db)).
Proof.
  intros Hne Hflush. split; [|split].
  - intros i Hkeys Hrow. rewrite (update_inquiry_object _ _ _ _ Hne Hrow).
    cbn [existsb inquiry_fields] in Hkeys.
    repeat (apply orb_false_elim in Hkeys as [?%negb_false_iff Hkeys]).
    assert (E : patched_inquiry members i = i)
      by (unfold patched_inquiry; rewrite !supplied_absent by assumption;
          destruct i; reflexivity).
    rewrite E, (with_inquiries_same _ _ _ Hrow), Hflush. reflexivity.
  - intros r Hkeys Hrow. rewrite (update_review_object _ _ _ _ Hne Hrow).
    cbn [existsb review_fields] in Hkeys.
    repeat (apply orb_false_elim in Hkeys as [?%negb_false_iff Hkeys]).
    assert (Hrating : dict_lookup "rating" members = None)
      by (match goal with
          | H : absent members "rating" = true |- _ =>
              unfold absent in H; destruct (dict_lookup "rating" members);
              [discriminate H | reflexivity]
          end).
    rewrite Hrating.
    assert (E : patched_review members r = r)
      by (unfold patched_review; rewrite !supplied_absent by assumption;
          destruct r; reflexivity).
    rewrite E, (with_reviews_same _ _ _ Hrow), Hflush. reflexivity.
  - intros n Hkeys Hrow. rewrite (update_newsletter_object _ _ _ _ Hne Hrow).
    cbn [existsb newsletter_fields] in Hkeys.
    repeat (apply orb_false_elim in Hkeys as [?%negb_false_iff Hkeys]).
    assert (E : patched_newsletter members n = n)
      by (unfold patched_newsletter; rewrite !supplied_absent by assumption;
          destruct n; reflexivity).
    rewrite E, (with_newsletters_same _ _ _ Hrow), Hflush. reflexivity.
Qed.

(** X10. Updates are idempotent: once an update has been committed, sending the
    same body for the same id again gives the same answer and leaves the
    tables as the first update left them (provided the engine commits
    again). *)
Theorem update_twice_is_update_once (ident : Z) (members : list (string * json))
    (db db' : database) (resp : response) :
  flush_error db' db' = None ->
  (update_inquiry ident (JObj members) db = (Return resp, db') ->
     update_inquiry ident (JObj members) db' = (Return resp, db'))
  /\ (update_review ident (JObj members) db = (Return resp, db') ->
        update_review ident (JObj members) db' = (Return resp, db'))
  /\ (update_newsletter ident (JObj members) db = (Return resp, db') ->
        update_newsletter ident (JObj members) db' = (Return resp, db')).
Proof.
  intros Hflush. split; [|split]; intros Hrun.
  - destruct members as [|kv rest] eqn:Hm;
      [unfold update_inquiry, after_checks in Hrun; cbn in Hrun; discriminate|].
    rewrite <- Hm in *. assert (Hnonempty : members <> []) by (rewrite Hm; discriminate).
    destruct (inquiries db !! ident) as [old|] eqn:Hrow.
    2: { unfold update_inquiry, after_checks in Hrun.
         rewrite (truthy_obj _ Hnonempty), (get_or_404_missing _ _ Hrow) in Hrun.
         discriminate. }
    rewrite (update_inquiry_object _ _ _ _ Hnonempty Hrow) in Hrun.
    destruct (flush_error db _); [discriminate|]. injection Hrun as Hresp Hdb.
    assert (Hrow' : inquiries db' !! ident = Some (patched_inquiry members old))
      by (rewrite <- Hdb; cbn [with_inquiries inquiries]; apply lookup_insert_eq).
    assert (E : patched_inquiry members (patched_inquiry members old)
                = patched_inquiry members old)
      by (unfold patched_inquiry; cbn; rewrite !supplied_twice; reflexivity).
    rewrite (update_inquiry_object _ _ _ _ Hnonempty Hrow'), E,
      (with_inquiries_same _ _ _ Hrow'), Hflush, Hresp.
    reflexivity.
  - destruct members as [|kv rest] eqn:Hm;
      [unfold update_review, after_checks in Hrun; cbn in Hrun; discriminate|].
    rewrite <- Hm in *. assert (Hnonempty : members <> []) by (rewrite Hm; discriminate).
    destruct (reviews db !! ident) as [old|] eqn:Hrow.
    2: { unfold update_review, after_checks in Hrun.
         rewrite (truthy_obj _ Hnonempty), (get_or_404_missing _ _ Hrow) in Hrun.
         discriminate. }
    rewrite (update_review_object _ _ _ _ Hnonempty Hrow) in Hrun.
    destruct (match dict_lookup "rating" members with
              | Some rating => chained_le 1 rating 5
              | None => Return true
              end) as [[|]|e] eqn:Hverdict; try discriminate.
    destruct (flush_error db _); [discriminate|]. injection Hrun as Hresp Hdb.
    assert (Hrow' : reviews db' !! ident = Some (patched_review members old))
      by (rewrite <- Hdb; cbn [with_reviews reviews]; apply lookup_insert_eq).
    assert (E : patched_review members (patched_review members old)
                = patched_review members old)
      by (unfold patched_review; cbn; rewrite !supplied_twice; reflexivity).
    rewrite (update_review_object _ _ _ _ Hnonempty Hrow'), Hverdict, E,
      (with_reviews_same _ _ _ Hrow'), Hflush, Hresp.
    reflexivity.
  - destruct members as [|kv rest] eqn:Hm;
      [unfold update_newsletter, after_checks in Hrun; cbn in Hrun; discriminate|].
    rewrite <- Hm in *. assert (Hnonempty : members <> []) by (rewrite Hm; discriminate).
    destruct (newsletters db !! ident) as [old|] eqn:Hrow.
    2: { unfold update_newsletter, after_checks in Hrun.
         rewrite (truthy_obj _ Hnonempty), (get_or_404_missing _ _ Hrow) in Hrun.
         discriminate. }
    rewrite (update_newsletter_object _ _ _ _ Hnonempty Hrow) in Hrun.
    destruct (flush_error db _); [discriminate|]. injection Hrun as Hresp Hdb.
    assert (Hrow' : newsletters db' !! ident = Some (patched_newsletter members old))
      by (rewrite <- Hdb; cbn [with_newsletters newsletters]; apply lookup_insert_eq).
    assert (E : patched_newsletter members (patched_newsletter members old)
                = patched_newsletter members old)
      by (unfold patched_newsletter; cbn; rewrite !supplied_twice; reflexivity).
    rewrite (update_newsletter_object _ _ _ _ Hnonempty Hrow'), E,
      (with_newsletters_same _ _ _ Hrow'), Hflush, Hresp.
    reflexivity.
Qed.

(** ** Deletes *)

(** X3. A delete that succeeds removes the row for good: the id no longer
    resolves, the table has one row less, and a second delete or an update
    of the same id is answered with 500 and changes nothing. *)
Theorem deleted_row_is_gone (ident : Z) (data : json) (db db' : database)
    (resp : response) :
  truthy data = true ->
  let lost := exn_str (HTTPException 404 None) in
  (delete_inquiry ident db = (Return resp, db') ->
     inquiries db' !! ident = None
     /\ size (inquiries db) = S (size (inquiries db'))
     /\ delete_inquiry ident db' = (abort 500 ("Failed to delete inquiry: " ++ lost), db')
     /\ update_inquiry ident data db'
        = (abort 500 ("Failed to update inquiry: " ++ lost), db'))
  /\ (delete_review ident db = (Return resp, db') ->
        reviews db' !! ident = None
        /\ size (reviews db) = S (size (reviews db'))
        /\ delete_review ident db' = (abort 500 ("Failed to delete review: " ++ lost), db')
        /\ update_review ident data db'
           = (abort 500 ("Failed to update review: " ++ lost), db'))
  /\ (delete_newsletter ident db = (Return resp, db') ->
        newsletters db' !! ident = None
        /\ size (newsletters db) = S (size (newsletters db'))
        /\ delete_newsletter ident db'
           = (abort 500 ("Failed to delete newsletter subscription: " ++ lost), db')
        /\ update_newsletter ident data db'
           = (abort 500 ("Failed to update newsletter subscription: " ++ lost), db')).
Proof.
  intros Hdata lost.
  assert (Hsize : forall (R : Type) (table : gmap Z R) (old : R),
            table !! ident = Some old -> size table = S (size (delete ident table))).
  { intros R table old Hold. rewrite map_size_delete, Hold. cbn.
    assert (size table <> 0%nat) as Hpos
      by (intros Hzero; apply map_size_empty_inv in Hzero; subst table;
          rewrite lookup_empty in Hold; discriminate).
    destruct (size table); [congruence | reflexivity]. }
  split; [|split]; intros Hrun.
  - destruct (delete_inquiry_outcomes ident db) as [[d Hd] | (old & Hold & Hok)];
      [rewrite Hd in Hrun; discriminate|].
    rewrite Hok in Hrun. injection Hrun as _ <-.
    assert (Hgone : inquiries (with_inquiries (delete ident (inquiries db)) db) !! ident
                    = None) by apply lookup_delete_eq.
    split; [exact Hgone|]. split; [exact (Hsize _ _ _ Hold)|].
    unfold delete_inquiry, update_inquiry, after_checks.
    rewrite Hdata, (get_or_404_missing _ _ Hgone). split; reflexivity.
  - destruct (delete_review_outcomes ident db) as [[d Hd] | (old & Hold & Hok)];
      [rewrite Hd in Hrun; discriminate|].
    rewrite Hok in Hrun. injection Hrun as _ <-.
    assert (Hgone : reviews (with_reviews (delete ident (reviews db)) db) !! ident
                    = None) by apply lookup_delete_eq.
    split; [exact Hgone|]. split; [exact (Hsize _ _ _ Hold)|].
    unfold delete_review, update_review, after_checks.
    rewrite Hdata, (get_or_404_missing _ _ Hgone). split; reflexivity.
  - destruct (delete_newsletter_outcomes ident db) as [[d Hd] | (old & Hold & Hok)];
      [rewrite Hd in Hrun; discriminate|].
    rewrite Hok in Hrun. injection Hrun as _ <-.
    assert (Hgone : newsletters (with_newsletters (delete ident (newsletters db)) db)
                      !! ident = None) by apply lookup_delete_eq.
    split; [exact Hgone|]. split; [exact (Hsize _ _ _ Hold)|].
    unfold delete_newsletter, update_newsletter, after_checks.
    rewrite Hdata, (get_or_404_missing _ _ Hgone). split; reflexivity.
Qed.

(** ** Listings *)

Lemma order_by_timestamp_desc_sorted {R : Type} (timestamp : R -> Z) (rows : list R) :
  StronglySorted (latest_first timestamp) (order_by_timestamp_desc timestamp rows).
Proof.
  assert (Htrans : Transitive (latest_first timestamp))
    by (intros x y z; unfold latest_first; lia).
  assert (Htotal : Total (latest_first timestamp))
    by (intros x y; unfold latest_first; lia).
  exact (@StronglySorted_merge_sort R (latest_first timestamp)
           (latest_first_dec timestamp) Htrans Htotal rows).
Qed.

Lemma query_rows {R : Type} (timestamp : R -> Z) (table : gmap Z R) :
  let rows := order_by_timestamp_desc timestamp (snd <$> map_to_list table) in
  StronglySorted (latest_first timestamp) rows
  /\ (forall r, r ∈ rows <-> exists k, table !! k = Some r)
  /\ length rows = size table.
Proof.
  intros rows.
  assert (Hperm : rows ≡ₚ snd <$> map_to_list table)
    by apply merge_sort_Permutation.
  split; [apply order_by_timestamp_desc_sorted|]. split.
  - intros r. rewrite Hperm, list_elem_of_fmap. split.
    + intros [[k r'] [-> Hin]]. exists k. apply elem_of_map_to_list in Hin. exact Hin.
    + intros [k Hk]. exists (k, r). split; [reflexivity|].
      apply elem_of_map_to_list. exact Hk.
  - rewrite Hperm, length_fmap. apply length_map_to_list.
Qed.

(** X1. When the query runs, a listing answers 200 with one entry for every
    stored row and no other, the most recent first (every entry is at
    least as recent as all entries after it), and leaves the tables as
    they were. *)
Theorem listings_are_complete_and_ordered (db : database) :
  query_error db = None ->
  (exists rows,
     get_inquiries db = (Return (Response 200 (JArr (inquiry_json <$> rows))), db)
     /\ StronglySorted (latest_first Inquiry.timestamp) rows
     /\ (forall r, r ∈ rows <-> exists k, inquiries db !! k = Some r)
     /\ length rows = size (inquiries db))
  /\ (exists rows,
        get_reviews db = (Return (Response 200 (JArr (review_json <$> rows))), db)
        /\ StronglySorted (latest_first Review.timestamp) rows
        /\ (forall r, r ∈ rows <-> exists k, reviews db !! k = Some r)
        /\ length rows = size (reviews db))
  /\ (exists rows,
        get_newsletters db
          = (Return (Response 200 (JArr (newsletter_json <$> rows))), db)
        /\ StronglySorted (latest_first Newsletter.timestamp) rows
        /\ (forall r, r ∈ rows <-> exists k, newsletters db !! k = Some r)
        /\ length rows = size (newsletters db)).
Proof.
  intros Hquery. split; [|split].
  - eexists. split; [|apply query_rows].
    unfold get_inquiries, query_latest_first. rewrite Hquery. reflexivity.
  - eexists. split; [|apply query_rows].
    unfold get_reviews, query_latest_first. rewrite Hquery. reflexivity.
  - eexists. split; [|apply query_rows].
    unfold get_newsletters, query_latest_first. rewrite Hquery. reflexivity.
Qed.

(** X2. A review that was accepted shows up in the public listing: the listing
    taken afterwards has one entry more, among them a row with the
    submitted name, company, text and rating and the submission time; and
    when every older review has an earlier timestamp, that row comes
    first. *)
Theorem submitted_review_is_listed (now : Z) (data : json) (db db' : database)
    (resp : response) :
  submit_review now data db = (Return resp, db') ->
  query_error db' = None ->
  exists row rows,
    get_reviews db' = (Return (Response 200 (JArr (review_json <$> rows))), db')
    /\ row ∈ rows
    /\ length rows = S (size (reviews db))
    /\ Review.timestamp row = now
    /\ py_getitem data "name" = Return (Review.name row)
    /\ py_getitem data "company" = Return (Review.company row)
    /\ py_getitem data "review" = Return (Review.review row)
    /\ py_getitem data "rating" = Return (Review.rating row)
    /\ ((forall k r, reviews db !! k = Some r -> Review.timestamp r < now) ->
        head rows = Some row).
Proof.
  intros Hrun Hquery.
  destruct (submit_review_outcomes now data db)
    as [(e & He & _) | (m & n & c & r & g & -> & Hn & Hc & Hr & Hg & _ & Hok)];
    [rewrite He in Hrun; discriminate|].
  rewrite Hok in Hrun. injection Hrun as _ <-.
  set (key := fresh (dom (reviews db))) in *.
  set (row := Review.Build key n c r g now) in *.
  set (db' := with_reviews (<[key := row]> (reviews db)) db) in *.
  destruct (query_rows Review.timestamp (reviews db')) as (Hsorted & Hmem & Hlen).
  exists row, (order_by_timestamp_desc Review.timestamp (snd <$> map_to_list (reviews db'))).
  assert (Hin : row ∈ order_by_timestamp_desc Review.timestamp
                        (snd <$> map_to_list (reviews db')))
    by (apply Hmem; exists key; apply lookup_insert_eq).
  split; [unfold get_reviews, query_latest_first; rewrite Hquery; reflexivity|].
  split; [exact Hin|].
  split; [rewrite Hlen; apply map_size_insert_None, fresh_key_unused|].
  split; [reflexivity|].
  cbn [py_getitem]. rewrite Hn, Hc, Hr, Hg.
  repeat (split; [reflexivity|]).
  intros Holder.
  destruct (order_by_timestamp_desc Review.timestamp (snd <$> map_to_list (reviews db')))
    as [|x rest] eqn:Hrows; [inversion Hin|].
  cbn [head]. f_equal.
  assert (Hx : exists k, reviews db' !! k = Some x) by (apply Hmem; left).
  destruct Hx as [k Hk]. cbn [db' with_reviews reviews] in Hk.
  apply lookup_insert_Some in Hk as [[_ Hk] | [_ Hk]]; [symmetry; exact Hk|].
  apply Holder in Hk.
  apply elem_of_cons in Hin as [Hin | Hin]; [symmetry; exact Hin|].
  apply StronglySorted_inv in Hsorted as [_ Hall].
  rewrite Forall_forall in Hall. apply Hall in Hin.
  unfold latest_first in Hin. cbn [row Review.timestamp] in Hin. lia.
Qed.

(** ** The Authorization header *)

Lemma string_app_assoc (a b c : string) : (a ++ b) ++ c = a ++ (b ++ c).
Proof.
  induction a as [|ch a IH]; [reflexivity|].
  change (String ch ((a ++ b) ++ c) = String ch (a ++ (b ++ c))).
  f_equal. exact IH.
Qed.

Lemma string_app_nil_r (a : string) : a ++ EmptyString = a.
Proof.
  induction a as [|ch a IH]; [reflexivity|].
  change (String ch (a ++ EmptyString) = String ch a). f_equal. exact IH.
Qed.

Lemma split_go_word (cur t rest : string) :
  all_chars (fun c => negb (is_space c)) t = true ->
  split_go cur (t ++ rest) = split_go (cur ++ t) rest.
Proof.
  revert cur. induction t as [|ch t IH]; intros cur Ht.
  - change (EmptyString ++ rest) with rest. rewrite string_app_nil_r. reflexivity.
  - cbn [all_chars] in Ht. apply andb_true_iff in Ht as [Hch Ht].
    apply negb_true_iff in Hch.
    change (String ch t ++ rest) with (String ch (t ++ rest)).
    cbn [split_go]. rewrite Hch, (IH _ Ht), string_app_assoc. reflexivity.
Qed.

Lemma split_go_blank_start (w rest : string) :
  blank w = true -> split_go EmptyString (w ++ rest) = split_go EmptyString rest.
Proof.
  unfold blank. induction w as [|ch w IH]; intros Hw; [reflexivity|].
  cbn [all_chars] in Hw. apply andb_true_iff in Hw as [Hch Hw].
  change (String ch w ++ rest) with (String ch (w ++ rest)).
  cbn [split_go]. rewrite Hch. exact (IH Hw).
Qed.

Lemma split_go_blank (cur w rest : string) :
  cur <> EmptyString -> w <> EmptyString -> blank w = true ->
  split_go cur (w ++ rest) = cur :: split_go EmptyString rest.
Proof.
  intros Hcur Hne Hw. destruct w as [|ch w]; [congruence|].
  unfold blank in Hw. cbn [all_chars] in Hw. apply andb_true_iff in Hw as [Hch Hw].
  change (String ch w ++ rest) with (String ch (w ++ rest)).
  cbn [split_go]. rewrite Hch.
  destruct cur; [congruence|]. f_equal. apply split_go_blank_start. exact Hw.
Qed.

Lemma split_go_end (cur w : string) :
  cur <> EmptyString -> blank w = true -> split_go cur w = [cur].
Proof.
  intros Hcur Hw. destruct w as [|ch w].
  - cbn [split_go]. destruct cur; [congruence | reflexivity].
  - assert (Hne : String ch w <> EmptyString) by discriminate.
    rewrite <- (string_app_nil_r (String ch w)).
    rewrite (split_go_blank _ _ _ Hcur Hne Hw). reflexivity.
Qed.

Lemma word_nonempty (s : string) : word s = true -> s <> EmptyString.
Proof. unfold word. intros H ->. discriminate H. Qed.

Lemma word_chars (s : string) :
  word s = true -> all_chars (fun c => negb (is_space c)) s = true.
Proof. unfold word. intros H. apply andb_true_iff in H as [_ H]. exact H. Qed.

Lemma py_split_header (pre scheme mid token post : string) :
  blank pre = true -> word scheme = true ->
  blank mid = true -> mid <> EmptyString ->
  word token = true -> blank post = true ->
  py_split (pre ++ scheme ++ mid ++ token ++ post) = [scheme; token].
Proof.
  intros Hpre Hscheme Hmid Hne Htoken Hpost. unfold py_split.
  rewrite (split_go_blank_start _ _ Hpre), (split_go_word _ _ _ (word_chars _ Hscheme)).
  change (EmptyString ++ scheme) with scheme.
  rewrite (split_go_blank _ _ _ (word_nonempty _ Hscheme) Hne Hmid),
    (split_go_word _ _ _ (word_chars _ Htoken)).
  change (EmptyString ++ token) with token.
  rewrite (split_go_end _ _ (word_nonempty _ Htoken) Hpost). reflexivity.
Qed.

Lemma header_nonempty (pre scheme rest : string) :
  word scheme = true -> String.eqb (pre ++ scheme ++ rest) EmptyString = false.
Proof.
  intros Hscheme. apply word_nonempty in Hscheme.
  destruct pre as [|c pre]; [|reflexivity].
  destruct scheme; [congruence | reflexivity].
Qed.

Lemma bearer_header (token : string) :
  word token = true ->
  String.eqb ("Bearer " ++ token) EmptyString = false
  /\ py_split ("Bearer " ++ token) = ["Bearer"; token].
Proof.
  intros Htoken. split; [reflexivity|].
  assert (Hne : " " <> EmptyString) by discriminate.
  pose proof (py_split_header EmptyString "Bearer" " " token EmptyString
                eq_refl eq_refl eq_refl Hne Htoken eq_refl) as H.
  rewrite string_app_nil_r in H. exact H.
Qed.

(** X11. The guard reads the header as two words: white space before the
    scheme, after the token, and any amount of it in between make no
    difference, and neither does the letter case of the scheme. Such a
    header is treated exactly as [Bearer <token>]. *)
Theorem header_spacing_and_case_are_free (f : database -> result response * database)
    (pre scheme mid token post : string) (db : database) :
  blank pre = true -> word scheme = true ->
  blank mid = true -> mid <> EmptyString ->
  word token = true -> blank post = true ->
  lower scheme = "bearer" ->
  admin_required f (Some (pre ++ scheme ++ mid ++ token ++ post)) db
  = admin_required f (Some ("Bearer " ++ token)) db.
Proof.
  intros Hpre Hscheme Hmid Hne Htoken Hpost Hlower.
  rewrite !admin_required_unfolded. unfold first_failed_check.
  rewrite (header_nonempty _ _ _ Hscheme),
    (py_split_header _ _ _ _ _ Hpre Hscheme Hmid Hne Htoken Hpost), Hlower.
  destruct (bearer_header _ Htoken) as [-> ->]. reflexivity.
Qed.

(** ** Login *)

Lemma py_ne_getenv_str (s : string) (o : option string) :
  py_ne_getenv (JStr s) o = negb (bool_decide (o = Some s)).
Proof.
  destruct o as [t|]; cbn; [|reflexivity].
  destruct (String.eqb s t) eqn:E.
  - apply String.eqb_eq in E as ->. rewrite bool_decide_eq_true_2; reflexivity.
  - apply String.eqb_neq in E. rewrite bool_decide_eq_false_2; [reflexivity|].
    intros [= ->]. contradiction.
Qed.

Lemma login_object (now : Z) (members : list (string * json))
    (username password : string) :
  dict_lookup "username" members = Some (JStr username) ->
  dict_lookup "password" members = Some (JStr password) ->
  login now (JObj members) =
  if bool_decide (getenv "ADMIN_USERNAME" = Some username)
     && bool_decide (getenv "ADMIN_PASSWORD" = Some password)
  then Return (Response 200
                 (JObj [("token",
                         JStr (pyjwt_encode
                                 [("admin", JBool true); ("username", JStr username);
                                  ("exp", JInt (now + 3600))] SECRET_KEY));
                        ("expires_at", JStr (isoformat (now + 3600)));
                        ("dashboard_url", JStr "/admin")]))
  else abort 401 "Invalid credentials".
Proof.
  intros Huser Hpass. unfold login.
  rewrite (truthy_obj _ (dict_lookup_nonempty _ _ _ Huser)). cbn [negb].
  rewrite any_not_in_obj. cbn [existsb]. unfold absent. rewrite Huser, Hpass.
  cbn [orb bind py_getitem]. rewrite Huser, Hpass. cbn [bind].
  rewrite !py_ne_getenv_str.
  destruct (bool_decide (getenv "ADMIN_USERNAME" = Some username));
    [|reflexivity].
  destruct (bool_decide (getenv "ADMIN_PASSWORD" = Some password)); reflexivity.
Qed.

(** X12. A login with both fields is decided by exact, case-sensitive equality
    of the user name and the password with the configured pair. When both
    match, the answer is 200 with a token whose payload is [admin: true],
    the user name and an expiry one hour ahead. When either differs, the
    answer is 401 with one and the same message, whichever of the two was
    wrong. A body that is empty or lacks one of the two keys gets 400. *)
Theorem login_checks_both_credentials (now : Z) (members : list (string * json))
    (username password : string) :
  (dict_lookup "username" members = Some (JStr username) ->
   dict_lookup "password" members = Some (JStr password) ->
   (getenv "ADMIN_USERNAME" = Some username /\ getenv "ADMIN_PASSWORD" = Some password ->
      login now (JObj members)
      = Return (Response 200
                  (JObj [("token",
                          JStr (pyjwt_encode
                                  [("admin", JBool true); ("username", JStr username);
                                   ("exp", JInt (now + 3600))] SECRET_KEY));
                         ("expires_at", JStr (isoformat (now + 3600)));
                         ("dashboard_url", JStr "/admin")])))
   /\ (getenv "ADMIN_USERNAME" <> Some username \/ getenv "ADMIN_PASSWORD" <> Some password ->
         login now (JObj members) = abort 401 "Invalid credentials"))
  /\ (existsb (absent members) ["username"; "password"] = true ->
        login now (JObj members) = abort 400 "Username and password are required").
Proof.
  split.
  - intros Huser Hpass. rewrite (login_object _ _ _ _ Huser Hpass). split.
    + intros [Hu Hp]. rewrite !bool_decide_eq_true_2 by assumption. reflexivity.
    + intros [Hu | Hp].
      * rewrite (bool_decide_eq_false_2 _ Hu). reflexivity.
      * rewrite (bool_decide_eq_false_2 _ Hp), andb_false_r. reflexivity.
  - intros Hmissing. unfold login.
    destruct (negb (truthy (JObj members))); [reflexivity|].
    rewrite any_not_in_obj, Hmissing. reflexivity.
Qed.

(** X13. The token a successful login returns opens the admin routes: if PyJWT
    decodes what it encoded under the same key, and the token has no white
    space in it, then sending it as [Bearer <token>] makes the guard run
    the wrapped view. *)
Theorem login_token_passes_the_guard (f : database -> result response * database)
    (now : Z) (members : list (string * json)) (username password : string)
    (db : database) :
  let payload := [("admin", JBool true); ("username", JStr username);
                  ("exp", JInt (now + 3600))] in
  let token := pyjwt_encode payload SECRET_KEY in
  dict_lookup "username" members = Some (JStr username) ->
  dict_lookup "password" members = Some (JStr password) ->
  getenv "ADMIN_USERNAME" = Some username ->
  getenv "ADMIN_PASSWORD" = Some password ->
  word token = true ->
  pyjwt_decode token SECRET_KEY = Decoded payload ->
  (exists resp,
     login now (JObj members) = Return resp
     /\ status resp = 200
     /\ py_getitem (body resp) "token" = Return (JStr token))
  /\ admin_required f (Some ("Bearer " ++ token)) db = f db.
Proof.
  intros payload token Huser Hpass Hu Hp Hword Hdecode. split.
  - eexists. rewrite (login_object _ _ _ _ Huser Hpass).
    rewrite !bool_decide_eq_true_2 by assumption. cbn [andb].
    split; [reflexivity|]. split; reflexivity.
  - rewrite admin_required_unfolded. unfold first_failed_check.
    destruct (bearer_header _ Hword) as [-> ->].
    change (lower "Bearer") with "bearer". cbn [String.eqb negb].
    rewrite Hdecode. reflexivity.
Qed.

(** ** A create undone by a delete *)

(** X4. Deleting the record a create has just stored, under the key it was
    given, succeeds and puts the tables back exactly as they were before
    the create (when the engine commits the delete). *)
Theorem create_then_delete_restores (now : Z) (data : json) (db db' : database)
    (resp : response) :
  flush_error db' db = None ->
  (create_inquiry now data db = (Return resp, db') ->
     snd (delete_inquiry (fresh (dom (inquiries db))) db') = db
     /\ reported_status (fst (delete_inquiry (fresh (dom (inquiries db))) db')) = 200)
  /\ (submit_review now data db = (Return resp, db') ->
        snd (delete_review (fresh (dom (reviews db))) db') = db
        /\ reported_status (fst (delete_review (fresh (dom (reviews db))) db')) = 200)
  /\ (create_newsletter now data db = (Return resp, db') ->
        snd (delete_newsletter (fresh (dom (newsletters db))) db') = db
        /\ reported_status
             (fst (delete_newsletter (fresh (dom (newsletters db))) db')) = 200).
Proof.
  intros Hflush. split; [|split]; intros Hrun.
  - destruct (create_inquiry_outcomes now data db) as [(e & He & _) | (m & _ & Hok)];
      [rewrite He in Hrun; discriminate|].
    rewrite Hok in Hrun. injection Hrun as _ <-.
    unfold delete_inquiry, try_rollback, get_or_404, commit.
    destruct db as [qi qr qn].
    unfold with_inquiries in *. cbn [inquiries reviews newsletters] in *.
    rewrite lookup_insert_eq. cbn [bind].
    rewrite delete_insert_id by apply fresh_key_unused.
    rewrite Hflush. split; reflexivity.
  - destruct (submit_review_outcomes now data db)
      as [(e & He & _) | (m & n & c & r & g & _ & _ & _ & _ & _ & _ & Hok)];
      [rewrite He in Hrun; discriminate|].
    rewrite Hok in Hrun. injection Hrun as _ <-.
    unfold delete_review, try_rollback, get_or_404, commit.
    destruct db as [qi qr qn].
    unfold with_reviews in *. cbn [inquiries reviews newsletters] in *.
    rewrite lookup_insert_eq. cbn [bind].
    rewrite delete_insert_id by apply fresh_key_unused.
    rewrite Hflush. split; reflexivity.
  - destruct (create_newsletter_outcomes now data db) as [(e & He & _) | (m & _ & Hok)];
      [rewrite He in Hrun; discriminate|].
    rewrite Hok in Hrun. injection Hrun as _ <-.
    unfold delete_newsletter, try_rollback, get_or_404, commit.
    destruct db as [qi qr qn].
    unfold with_newsletters in *. cbn [inquiries reviews newsletters] in *.
    rewrite lookup_insert_eq. cbn [bind].
    rewrite delete_insert_id by apply fresh_key_unused.
    rewrite Hflush. split; reflexivity.
Qed.

(** ** Identity of the records *)

(** X15. Whatever body an update view is sent and whatever its outcome, the
    record it addresses is still there afterwards with the id and the
    creation timestamp it had. *)
Theorem update_keeps_id_and_timestamp (ident : Z) (data : json) (db : database) :
  (forall old, inquiries db !! ident = Some old ->
     exists new, inquiries (snd (update_inquiry ident data db)) !! ident = Some new
                 /\ Inquiry.id new = Inquiry.id old
                 /\ Inquiry.timestamp new = Inquiry.timestamp old)
  /\ (forall old, reviews db !! ident = Some old ->
        exists new, reviews (snd (update_review ident data db)) !! ident = Some new
                    /\ Review.id new = Review.id old
                    /\ Review.timestamp new = Review.timestamp old)
  /\ (forall old, newsletters db !! ident = Some old ->
        exists new, newsletters (snd (update_newsletter ident data db)) !! ident = Some new
                    /\ Newsletter.id new = Newsletter.id old
                    /\ Newsletter.timestamp new = Newsletter.timestamp old).
Proof.
  split; [|split]; intros old Hold.
  - destruct (update_inquiry_outcomes ident data db)
      as [-> | [[d ->] | (old' & new & Hold' & Hid & Hts & _ & ->)]]; cbn [snd];
      [exists old; auto | exists old; auto |].
    rewrite Hold in Hold'. injection Hold' as <-.
    exists new. split; [apply lookup_insert_eq | auto].
  - destruct (update_review_outcomes ident data db)
      as [-> | [[d ->] | (old' & new & Hold' & Hid & Hts & _ & ->)]]; cbn [snd];
      [exists old; auto | exists old; auto |].
    rewrite Hold in Hold'. injection Hold' as <-.
    exists new. split; [apply lookup_insert_eq | auto].
  - destruct (update_newsletter_outcomes ident data db)
      as [-> | [[d ->] | (old' & new & Hold' & Hid & Hts & _ & ->)]]; cbn [snd];
      [exists old; auto | exists old; auto |].
    rewrite Hold in Hold'. injection Hold' as <-.
    exists new. split; [apply lookup_insert_eq | auto].
Qed.

(** X16. If every row is stored under its own id, this stays so after any
    writing view, for every request and every outcome: a create stores the
    new row under the id it gives it, an update never changes an id, and a
    delete only removes. *)
Theorem rows_stay_keyed_by_id (now ident : Z) (data : json) (db : database) :
  keyed_by_id db ->
  keyed_by_id (snd (create_inquiry now data db))
  /\ keyed_by_id (snd (submit_review now data db))
  /\ keyed_by_id (snd (create_newsletter now data db))
  /\ keyed_by_id (snd (update_inquiry ident data db))
  /\ keyed_by_id (snd (update_review ident data db))
  /\ keyed_by_id (snd (update_newsletter ident data db))
  /\ keyed_by_id (snd (delete_inquiry ident db))
  /\ keyed_by_id (snd (delete_review ident db))
  /\ keyed_by_id (snd (delete_newsletter ident db)).
Proof.
  intros (Hi & Hr & Hn).
  assert (Hins : forall (R : Type) (get : R -> Z) (table : gmap Z R) (key : Z) (row : R),
            (forall k r, table !! k = Some r -> get r = k) ->
            get row = key ->
            forall k r, <[key := row]> table !! k = Some r -> get r = k).
  { intros R get table key row Htable Hrow k r Hk.
    apply lookup_insert_Some in Hk as [[<- <-] | [_ Hk]]; [exact Hrow | eauto]. }
  assert (Hdel : forall (R : Type) (get : R -> Z) (table : gmap Z R) (key : Z),
            (forall k r, table !! k = Some r -> get r = k) ->
            forall k r, delete key table !! k = Some r -> get r = k).
  { intros R get table key Htable k r Hk.
    apply lookup_delete_Some in Hk as [_ Hk]. eauto. }
  repeat split.
  all: try match goal with
       | |- context [create_inquiry ?n ?d ?b] =>
           destruct (create_inquiry_outcomes n d b) as [(e & -> & _) | (m & _ & ->)]
       | |- context [submit_review ?n ?d ?b] =>
           destruct (submit_review_outcomes n d b)
             as [(e & -> & _) | (m & n' & c & r & g & _ & _ & _ & _ & _ & _ & ->)]
       | |- context [create_newsletter ?n ?d ?b] =>
           destruct (create_newsletter_outcomes n d b) as [(e & -> & _) | (m & _ & ->)]
       | |- context [update_inquiry ?i ?d ?b] =>
           destruct (update_inquiry_outcomes i d b)
             as [-> | [[msg ->] | (old & new & Hold & Hid & _ & _ & ->)]]
       | |- context [update_review ?i ?d ?b] =>
           destruct (update_review_outcomes i d b)
             as [-> | [[msg ->] | (old & new & Hold & Hid & _ & _ & ->)]]
       | |- context [update_newsletter ?i ?d ?b] =>
           destruct (update_newsletter_outcomes i d b)
             as [-> | [[msg ->] | (old & new & Hold & Hid & _ & _ & ->)]]
       | |- context [delete_inquiry ?i ?b] =>
           destruct (delete_inquiry_outcomes i b) as [[msg ->] | (old & Hold & ->)]
       | |- context [delete_review ?i ?b] =>
           destruct (delete_review_outcomes i b) as [[msg ->] | (old & Hold & ->)]
       | |- context [delete_newsletter ?i ?b] =>
           destruct (delete_newsletter_outcomes i b) as [[msg ->] | (old & Hold & ->)]
       end.
  all: cbn [snd with_inquiries with_reviews with_newsletters inquiries reviews newsletters].
  all: try assumption.
  all: try (apply Hdel; assumption).
  all: apply Hins; try assumption; try reflexivity.
  all: rewrite Hid; eauto.
Qed.

(** ** Ratings that are not integers *)

(** C4. The claim asks that a stored rating be one of 1, 2, 3, 4, 5, and
    the column is declared [db.Integer] with the comment that the rating
    is to be between 1 and 5. The views only compare the value with 1 and
    5 and never test that it is an integer. So a submission whose rating
    is any JSON number between 1 and 5, such as 4.5, passes the check and
    is handed to the session as it is: when the engine commits, the answer
    is 201 and the row carries that rating. An update that supplies such a
    rating is committed in the same way. *)
Theorem fractional_rating_is_accepted (now ident : Z) (q : Q) (db : database) :
  Qle_bool 1 q = true ->
  Qle_bool q 5 = true ->
  let rating := JFloat (FNum q) in
  in_range rating
  /\ (let row :=
        Review.Build (fresh (dom (reviews db))) (JStr "Ada") (JStr "Acme") (JStr "Great")
                     rating now in
      let db' := with_reviews (<[Review.id row := row]> (reviews db)) db in
      submit_review now (JObj (review_body rating)) db =
      match flush_error db db' with
      | None =>
          (Return (Response 201
                     (JObj [("message", JStr "Review submitted successfully")])),
           db')
      | Some message =>
          (abort 500 ("Failed to submit review: " ++ exn_str (SQLAlchemyError message)),
           db)
      end)
  /\ (forall old, reviews db !! ident = Some old ->
        let new := Review.set_rating rating old in
        let db' := with_reviews (<[ident := new]> (reviews db)) db in
        update_review ident (JObj [("rating", rating)]) db =
        match flush_error db db' with
        | None => (Return (Response 200 (review_json new)), db')
        | Some message =>
            (abort 500 ("Failed to update review: " ++ exn_str (SQLAlchemyError message)),
             db)
        end)
  /\ one_to_five (JFloat (FNum (9 # 2))) = false.
Proof.
  intros Hlow Hhigh rating.
  assert (Hrange : in_range rating).
  { unfold in_range, chained_le, int_le_py, py_le_int, rating.
    cbn [as_number bind float_le].
    change (Qle_bool (inject_Z 1) q) with (Qle_bool 1 q). rewrite Hlow.
    change (Qle_bool q (inject_Z 5)) with (Qle_bool q 5). rewrite Hhigh.
    reflexivity. }
  split; [exact Hrange|]. split; [|split; [|reflexivity]].
  - intros row db'. unfold submit_review, after_checks.
    cbn [review_body truthy negb]. rewrite any_not_in_obj.
    change (existsb (absent (review_body rating)) ["name"; "company"; "review"; "rating"])
      with false.
    cbn [bind py_getitem]. change (dict_lookup "rating" (review_body rating))
      with (Some rating). cbn [bind].
    unfold in_range in Hrange. rewrite Hrange. cbn [bind negb].
    change (dict_lookup "name" (review_body rating)) with (Some (JStr "Ada")).
    change (dict_lookup "company" (review_body rating)) with (Some (JStr "Acme")).
    change (dict_lookup "review" (review_body rating)) with (Some (JStr "Great")).
    cbn [bind]. unfold try_rollback, commit. fold row. fold db'.
    destruct (flush_error db db'); reflexivity.
  - intros old Hold new db'.
    assert (Hne : [("rating", rating)] <> []) by discriminate.
    rewrite (update_review_object _ _ _ _ Hne Hold).
    change (dict_lookup "rating" [("rating", rating)]) with (Some rating).
    cbv beta iota. unfold in_range in Hrange. rewrite Hrange.
    assert (E : patched_review [("rating", rating)] old = new)
      by (destruct old; reflexivity).
    rewrite E. fold db'. destruct (flush_error db db'); reflexivity.
Qed.

End Service.

(** ** Startup and the admin user name *)

Lemma startup_requires_listed (env : gmap string string) (var : string) :
  In var required_vars ->
  getenv_falsy env var = true ->
  exists message, startup env = Raise (RuntimeError message).
Proof.
  intros Hin Hfalsy. unfold startup, missing_vars.
  destruct (List.filter (getenv_falsy env) required_vars) as [|v rest] eqn:Hfilter.
  - assert (In var (List.filter (getenv_falsy env) required_vars)) as Habs
      by (apply filter_In; split; assumption).
    rewrite Hfilter in Habs. destruct Habs.
  - eexists. reflexivity.
Qed.

(** C5. The claim makes a missing admin user name fatal at startup. The
    startup check lists [SECRET_KEY], [DATABASE_URL] and [ADMIN_PASSWORD]
    only: whether [ADMIN_USERNAME] is set never changes its outcome, and an
    environment that has the three listed variables and no
    [ADMIN_USERNAME] starts. *)
Theorem startup_ignores_admin_username :
  (forall env : gmap string string,
     startup (delete "ADMIN_USERNAME" env) = startup env)
  /\ sample_environ !! "ADMIN_USERNAME" = None
  /\ startup sample_environ = Return tt.
Proof.
  split; [|split; reflexivity].
  intros env. unfold startup, missing_vars, required_vars.
  cbn [List.filter]. unfold getenv_falsy.
  rewrite !lookup_delete_ne by discriminate. reflexivity.
Qed.

(** With [ADMIN_USERNAME] unset, [os.getenv] gives [None], and a login
    whose user name is JSON [null] passes the comparison. *)
Example login_with_null_username :
  login sample_environ sample_encode sample_isoformat 1700000000
    (JObj [("username", JNull); ("password", JStr "hunter2")])
  = Return (Response 200
              (JObj [("token", JStr "good.admin.token");
                     ("expires_at", JStr (sample_isoformat 1700003600));
                     ("dashboard_url", JStr "/admin")])).
Proof. vm_compute. reflexivity. Qed.

(** ** Instances *)

Lemma sample_guard_passes :
  guard sample_environ sample_decode sample_exn_str (Some "Bearer good.admin.token")
  = Return tt.
Proof. vm_compute. reflexivity. Defined.

Lemma sample_ratings_in_range : ratings_in_range sample_database.
Proof.
  intros ident r H. cbn [sample_database reviews] in H.
  apply lookup_singleton_Some in H as [_ <-]. vm_compute. reflexivity.
Defined.

Lemma unknown_id_answers_500_witness :
  guard sample_environ sample_decode sample_exn_str (Some "Bearer good.admin.token")
    = Return tt
  /\ inquiries empty_database !! 7 = None
  /\ admin_required sample_environ sample_decode sample_exn_str
       (delete_inquiry engine_accepts sample_exn_str 7)
       (Some "Bearer good.admin.token") empty_database
     = (abort 500
          ("Failed to delete inquiry: "
           ++ "404 Not Found: The requested URL was not found on the server."),
        empty_database).
Proof.
  split; [exact sample_guard_passes|]. split; [reflexivity|].
  exact (proj1 (proj1 (unknown_id_answers_500 sample_environ sample_decode
                         engine_accepts sample_exn_str sample_isoformat
                         (Some "Bearer good.admin.token") 7
                         (JObj [("name", JStr "Grace")]) empty_database
                         sample_guard_passes eq_refl) eq_refl)).
Defined.

Lemma out_of_range_update_answers_500_witness :
  reviews sample_database !! 1 = Some sample_review
  /\ chained_le 1 (JInt 6) 5 = Return false
  /\ admin_required sample_environ sample_decode sample_exn_str
       (update_review engine_accepts sample_exn_str sample_isoformat 1
          (JObj [("name", JStr "Grace"); ("rating", JInt 6)]))
       (Some "Bearer good.admin.token") sample_database
     = (abort 500 "Failed to update review: 400 Bad Request: Rating must be between 1 and 5",
        sample_database).
Proof.
  split; [reflexivity|]. split; [reflexivity|].
  exact (out_of_range_update_answers_500 sample_environ sample_decode engine_accepts
           sample_exn_str sample_isoformat (Some "Bearer good.admin.token") 1
           [("name", JStr "Grace"); ("rating", JInt 6)] (JInt 6) sample_review
           sample_database sample_guard_passes eq_refl eq_refl eq_refl).
Defined.

Lemma guard_checks_in_order_witness :
  first_failed_check sample_environ sample_decode (Some "Basic good.admin.token")
    = Some MalformedScheme
  /\ admin_required sample_environ sample_decode sample_exn_str
       (delete_inquiry engine_accepts sample_exn_str 1)
       (Some "Basic good.admin.token") sample_database
     = (abort 401 "Invalid authorization scheme", sample_database).
Proof.
  split; [vm_compute; reflexivity|].
  exact (proj1 (guard_checks_in_order sample_environ sample_decode sample_exn_str
                  (delete_inquiry engine_accepts sample_exn_str 1)
                  (Some "Basic good.admin.token") sample_database)).
Defined.

Lemma guard_ignores_username_witness :
  py_split "Bearer good.admin.token" = ["Bearer"; "good.admin.token"]
  /\ lower "Bearer" = "bearer"
  /\ admin_required sample_environ sample_decode sample_exn_str
       (delete_review engine_accepts sample_exn_str 1)
       (Some "Bearer good.admin.token") sample_database
     = delete_review engine_accepts sample_exn_str 1 sample_database.
Proof.
  split; [reflexivity|]. split; [reflexivity|].
  apply (guard_ignores_username sample_environ sample_decode sample_exn_str _
           "Bearer good.admin.token" "Bearer" "good.admin.token"
           [("admin", JBool true); ("username", JStr "root"); ("exp", JInt 4102444800)]
           (Some (JStr "root")) sample_database);
    [discriminate | reflexivity ..].
Defined.

Lemma uncomparable_rating_escapes_witness :
  as_number (JStr "five") = None
  /\ submit_review engine_accepts sample_exn_str 1700000000
       (JObj (review_body (JStr "five"))) sample_database
     = (Raise TypeError, sample_database).
Proof.
  split; [reflexivity|].
  exact (proj1 (uncomparable_rating_escapes engine_accepts sample_exn_str
                  sample_default_description 1700000000 (review_body (JStr "five"))
                  (JStr "five") sample_database
                  eq_refl eq_refl eq_refl)).
Defined.


Lemma create_persists_and_confirms_witness :
  existsb (absent inquiry_body) ["name"; "email"] = false
  /\ fst (create_inquiry engine_accepts sample_exn_str 1700000000 (JObj inquiry_body)
            sample_database)
     = Return (Response 201 (JObj [("message", JStr "Inquiry submitted successfully")]))
  /\ inquiries sample_database !! fresh (dom (inquiries sample_database)) = None.
Proof.
  split; [reflexivity|].
  pose proof (proj1 (create_persists_and_confirms engine_accepts sample_exn_str
                       1700000000 inquiry_body sample_database)) as H.
  cbv zeta in H. specialize (H eq_refl eq_refl).
  destruct H as (Hrun & Hfresh & _).
  split; [rewrite Hrun; reflexivity | exact Hfresh].
Defined.

Lemma update_applies_whitelist_witness :
  patch_body <> []
  /\ inquiries sample_database !! 1 = Some sample_inquiry
  /\ update_inquiry engine_accepts sample_exn_str sample_isoformat 1 (JObj patch_body)
       sample_database
     = (Return (Response 200
                  (inquiry_json sample_isoformat
                     (patched_inquiry patch_body sample_inquiry))),
        with_inquiries
          (<[1 := patched_inquiry patch_body sample_inquiry]> (inquiries sample_database))
          sample_database)
  /\ Inquiry.id (patched_inquiry patch_body sample_inquiry) = 1
  /\ Inquiry.timestamp (patched_inquiry patch_body sample_inquiry) = 1700000000
  /\ Inquiry.name (patched_inquiry patch_body sample_inquiry) = JStr "Grace".
Proof.
  assert (Hne : patch_body <> []) by discriminate.
  split; [exact Hne|]. split; [reflexivity|].
  pose proof (proj1 (update_applies_whitelist engine_accepts sample_exn_str sample_isoformat 1
                       patch_body sample_database Hne) sample_inquiry eq_refl) as H.
  cbv zeta in H. destruct H as (Hrun & Hid & Hts & _).
  split; [exact Hrun|]. split; [exact Hid|]. split; [exact Hts|]. reflexivity.
Defined.

Lemma review_writes_keep_rating_in_range_witness :
  ratings_in_range sample_database
  /\ ratings_in_range
       (snd (submit_review engine_accepts sample_exn_str 1700000000
               (JObj (review_body (JInt 4))) sample_database))
  /\ ratings_in_range
       (snd (update_review engine_accepts sample_exn_str sample_isoformat 1
               (JObj [("rating", JInt 2)]) sample_database)).
Proof.
  split; [exact sample_ratings_in_range|].
  split.
  - exact (proj1 (proj1 (review_writes_keep_rating_in_range engine_accepts sample_exn_str
                           sample_isoformat 1700000000 1 (JObj (review_body (JInt 4)))
                           sample_database sample_ratings_in_range))).
  - exact (proj1 (proj1 (proj2 (review_writes_keep_rating_in_range engine_accepts
                                  sample_exn_str sample_isoformat 1700000000 1
                                  (JObj [("rating", JInt 2)]) sample_database
                                  sample_ratings_in_range)))).
Defined.

(** ** Where the claims and the views part *)


(** C7, as claimed, fails: a valid inquiry is stored under a fresh key, and
    the 201 answer is a message only; it has no [id] and is not the
    record. *)
Lemma create_answer_is_not_the_record :
  fst (create_inquiry engine_accepts sample_exn_str 1700000000 (JObj inquiry_body)
         empty_database)
    = Return (Response 201 (JObj [("message", JStr "Inquiry submitted successfully")]))
  /\ inquiries (snd (create_inquiry engine_accepts sample_exn_str 1700000000
                       (JObj inquiry_body) empty_database)) !! 0
     = Some (Inquiry.Build 0 (JStr "Ada") (JStr "ada@acme.test") JNull (JStr "Acme")
               JNull JNull JNull 1700000000)
  /\ py_getitem (JObj [("message", JStr "Inquiry submitted successfully")]) "id"
     = Raise (KeyError "id")
  /\ JObj [("message", JStr "Inquiry submitted successfully")]
     <> inquiry_json sample_isoformat
          (Inquiry.Build 0 (JStr "Ada") (JStr "ada@acme.test") JNull (JStr "Acme")
             JNull JNull JNull 1700000000).
Proof.
  split; [vm_compute; reflexivity|]. split; [vm_compute; reflexivity|].
  split; [reflexivity|]. discriminate.
Qed.

(** ** Startup: which variables must be set *)

(** X14. The process starts exactly when [SECRET_KEY], [DATABASE_URL] and
    [ADMIN_PASSWORD] are all set to non-empty values; a variable set to the
    empty string counts as missing. *)
Theorem startup_succeeds_iff (env : gmap string string) :
  startup env = Return tt
  <-> (forall var, In var required_vars ->
         exists value, env !! var = Some value /\ value <> EmptyString).
Proof.
  split.
  - intros Hstart var Hin.
    destruct (getenv_falsy env var) eqn:Hfalsy.
    + destruct (startup_requires_listed env var Hin Hfalsy) as [message Hraise].
      rewrite Hraise in Hstart. discriminate.
    + unfold getenv_falsy in Hfalsy.
      destruct (env !! var) as [value|]; [|discriminate].
      exists value. split; [reflexivity|]. intros ->. discriminate.
  - intros Hset. unfold startup, missing_vars.
    destruct (List.filter (getenv_falsy env) required_vars) as [|var rest] eqn:Hfilter;
      [reflexivity|].
    assert (Hin : In var (List.filter (getenv_falsy env) required_vars))
      by (rewrite Hfilter; left; reflexivity).
    apply filter_In in Hin as [Hin Hfalsy].
    destruct (Hset var Hin) as (value & Hvalue & Hne).
    unfold getenv_falsy in Hfalsy. rewrite Hvalue in Hfalsy.
    apply String.eqb_eq in Hfalsy. contradiction.
Qed.

(** ** Further instances *)

Lemma listings_are_complete_and_ordered_witness :
  query_runs sample_database = None
  /\ exists rows,
       get_reviews sample_exn_str sample_isoformat query_runs sample_database
       = (Return (Response 200 (JArr (review_json sample_isoformat <$> rows))),
          sample_database)
       /\ length rows = size (reviews sample_database).
Proof.
  split; [reflexivity|].
  destruct (listings_are_complete_and_ordered sample_exn_str sample_isoformat query_runs
              sample_database eq_refl) as (_ & (rows & Hrun & _ & _ & Hlen) & _).
  exists rows. split; assumption.
Defined.

Lemma submitted_review_is_listed_witness :
  fst (submit_review engine_accepts sample_exn_str 1700000100
         (JObj (review_body (JInt 4))) sample_database)
  = Return (Response 201 (JObj [("message", JStr "Review submitted successfully")]))
  /\ exists row rows,
       row ∈ rows
       /\ Review.timestamp row = 1700000100
       /\ py_getitem (JObj (review_body (JInt 4))) "rating" = Return (Review.rating row)
       /\ head rows = Some row.
Proof.
  assert (Hrun : submit_review engine_accepts sample_exn_str 1700000100
                   (JObj (review_body (JInt 4))) sample_database
                 = (Return (Response 201
                              (JObj [("message", JStr "Review submitted successfully")])),
                    snd (submit_review engine_accepts sample_exn_str 1700000100
                           (JObj (review_body (JInt 4))) sample_database)))
    by (vm_compute; reflexivity).
  split; [rewrite Hrun; reflexivity|].
  destruct (submitted_review_is_listed engine_accepts sample_exn_str sample_isoformat
              query_runs _ _ _ _ _ Hrun eq_refl)
    as (row & rows & _ & Hin & _ & Hts & _ & _ & _ & Hrating & Hfirst).
  exists row, rows. split; [exact Hin|]. split; [exact Hts|]. split; [exact Hrating|].
  apply Hfirst. intros k r Hk. cbn [sample_database reviews] in Hk.
  apply lookup_singleton_Some in Hk as [_ <-]. reflexivity.
Defined.

Lemma deleted_row_is_gone_witness :
  truthy (JObj rename_body) = true
  /\ fst (delete_inquiry engine_accepts sample_exn_str 1 sample_database)
     = Return (Response 200 (JObj [("message", JStr "Inquiry 1 deleted successfully")]))
  /\ fst (delete_inquiry engine_accepts sample_exn_str 1
            (snd (delete_inquiry engine_accepts sample_exn_str 1 sample_database)))
     = abort 500 ("Failed to delete inquiry: " ++ sample_exn_str (HTTPException 404 None)).
Proof.
  assert (Hrun : delete_inquiry engine_accepts sample_exn_str 1 sample_database
                 = (Return (Response 200
                              (JObj [("message",
                                      JStr "Inquiry 1 deleted successfully")])),
                    snd (delete_inquiry engine_accepts sample_exn_str 1 sample_database)))
    by (vm_compute; reflexivity).
  split; [reflexivity|]. split; [rewrite Hrun; reflexivity|].
  destruct (proj1 (deleted_row_is_gone engine_accepts sample_exn_str sample_isoformat
                     1 (JObj rename_body) _ _ _ eq_refl) Hrun)
    as (_ & _ & Hagain & _).
  rewrite Hagain. reflexivity.
Defined.

Lemma create_then_delete_restores_witness :
  fst (create_inquiry engine_accepts sample_exn_str 1700000100 (JObj inquiry_body)
         sample_database)
  = Return (Response 201 (JObj [("message", JStr "Inquiry submitted successfully")]))
  /\ snd (delete_inquiry engine_accepts sample_exn_str
            (fresh (dom (inquiries sample_database)))
            (snd (create_inquiry engine_accepts sample_exn_str 1700000100
                    (JObj inquiry_body) sample_database)))
     = sample_database.
Proof.
  assert (Hrun : create_inquiry engine_accepts sample_exn_str 1700000100
                   (JObj inquiry_body) sample_database
                 = (Return (Response 201
                              (JObj [("message", JStr "Inquiry submitted successfully")])),
                    snd (create_inquiry engine_accepts sample_exn_str 1700000100
                           (JObj inquiry_body) sample_database)))
    by (vm_compute; reflexivity).
  split; [rewrite Hrun; reflexivity|].
  exact (proj1 (proj1 (create_then_delete_restores engine_accepts sample_exn_str
                         1700000100 (JObj inquiry_body) sample_database _ _ eq_refl)
                  Hrun)).
Defined.

Lemma non_object_body_changes_nothing_witness :
  (forall members, array_body <> JObj members)
  /\ (exists e, create_inquiry engine_accepts sample_exn_str 1700000100 array_body
                  sample_database = (Raise e, sample_database))
  /\ snd (update_inquiry engine_accepts sample_exn_str sample_isoformat 1 array_body
            sample_database) = sample_database.
Proof.
  assert (Hdata : forall members, array_body <> JObj members) by discriminate.
  split; [exact Hdata|].
  destruct (non_object_body_changes_nothing engine_accepts sample_exn_str sample_isoformat
              1700000100 1 array_body sample_database Hdata)
    as ((Hcreate & _ & _) & Hupdate & _).
  split; assumption.
Defined.

Lemma update_without_known_keys_changes_nothing_witness :
  unknown_keys_body <> []
  /\ existsb (fun k => negb (absent unknown_keys_body k)) inquiry_fields = false
  /\ update_inquiry engine_accepts sample_exn_str sample_isoformat 1
       (JObj unknown_keys_body) sample_database
     = (Return (Response 200 (inquiry_json sample_isoformat sample_inquiry)),
        sample_database).
Proof.
  assert (Hne : unknown_keys_body <> []) by discriminate.
  split; [exact Hne|]. split; [reflexivity|].
  exact (proj1 (update_without_known_keys_changes_nothing engine_accepts sample_exn_str
                  sample_isoformat 1 unknown_keys_body sample_database Hne eq_refl)
           sample_inquiry eq_refl eq_refl).
Defined.

Lemma update_twice_is_update_once_witness :
  fst (update_inquiry engine_accepts sample_exn_str sample_isoformat 1 (JObj rename_body)
         sample_database)
  = Return (Response 200
              (inquiry_json sample_isoformat (patched_inquiry rename_body sample_inquiry)))
  /\ update_inquiry engine_accepts sample_exn_str sample_isoformat 1 (JObj rename_body)
       (snd (update_inquiry engine_accepts sample_exn_str sample_isoformat 1
               (JObj rename_body) sample_database))
     = (Return (Response 200
                  (inquiry_json sample_isoformat
                     (patched_inquiry rename_body sample_inquiry))),
        snd (update_inquiry engine_accepts sample_exn_str sample_isoformat 1
               (JObj rename_body) sample_database)).
Proof.
  assert (Hrun : update_inquiry engine_accepts sample_exn_str sample_isoformat 1
                   (JObj rename_body) sample_database
                 = (Return (Response 200
                              (inquiry_json sample_isoformat
                                 (patched_inquiry rename_body sample_inquiry))),
                    snd (update_inquiry engine_accepts sample_exn_str sample_isoformat 1
                           (JObj rename_body) sample_database)))
    by (vm_compute; reflexivity).
  split; [rewrite Hrun; reflexivity|].
  exact (proj1 (update_twice_is_update_once engine_accepts sample_exn_str sample_isoformat
                  1 rename_body sample_database _ _ eq_refl) Hrun).
Defined.

Lemma header_spacing_and_case_are_free_witness :
  word "BEARER" = true
  /\ blank "   " = true
  /\ lower "BEARER" = "bearer"
  /\ admin_required sample_environ sample_decode sample_exn_str
       (delete_review engine_accepts sample_exn_str 1)
       (Some "BEARER   good.admin.token ") sample_database
     = admin_required sample_environ sample_decode sample_exn_str
         (delete_review engine_accepts sample_exn_str 1)
         (Some "Bearer good.admin.token") sample_database.
Proof.
  split; [reflexivity|]. split; [reflexivity|]. split; [reflexivity|].
  assert (Hne : "   " <> EmptyString) by discriminate.
  exact (header_spacing_and_case_are_free sample_environ sample_decode sample_exn_str
           (delete_review engine_accepts sample_exn_str 1)
           EmptyString "BEARER" "   " "good.admin.token" " " sample_database
           eq_refl eq_refl eq_refl Hne eq_refl eq_refl eq_refl).
Defined.

Lemma login_checks_both_credentials_witness :
  dict_lookup "username" login_body = Some (JStr "root")
  /\ getenv full_environ "ADMIN_USERNAME" = Some "root"
  /\ login full_environ sample_encode sample_isoformat 1700000000
       (JObj [("username", JStr "root"); ("password", JStr "Hunter2")])
     = abort 401 "Invalid credentials"
  /\ login full_environ sample_encode sample_isoformat 1700000000
       (JObj [("username", JStr "Root"); ("password", JStr "hunter2")])
     = abort 401 "Invalid credentials".
Proof.
  split; [reflexivity|]. split; [reflexivity|]. split.
  - apply (proj1 (login_checks_both_credentials full_environ sample_encode sample_isoformat
                    1700000000
                    [("username", JStr "root"); ("password", JStr "Hunter2")]
                    "root" "Hunter2") eq_refl eq_refl).
    right. vm_compute. discriminate.
  - apply (proj1 (login_checks_both_credentials full_environ sample_encode sample_isoformat
                    1700000000
                    [("username", JStr "Root"); ("password", JStr "hunter2")]
                    "Root" "hunter2") eq_refl eq_refl).
    left. vm_compute. discriminate.
Defined.

Lemma login_token_passes_the_guard_witness :
  word (sample_encode
          [("admin", JBool true); ("username", JStr "root"); ("exp", JInt 4102444800)]
          (SECRET_KEY full_environ)) = true
  /\ admin_required full_environ sample_decode sample_exn_str
       (delete_review engine_accepts sample_exn_str 1)
       (Some "Bearer good.admin.token") sample_database
     = delete_review engine_accepts sample_exn_str 1 sample_database.
Proof.
  split; [reflexivity|].
  exact (proj2 (login_token_passes_the_guard full_environ sample_decode sample_encode
                  sample_exn_str sample_isoformat
                  (delete_review engine_accepts sample_exn_str 1)
                  4102441200 login_body "root" "hunter2" sample_database
                  eq_refl eq_refl eq_refl eq_refl eq_refl eq_refl)).
Defined.

Lemma sample_database_keyed_by_id : keyed_by_id sample_database.
Proof.
  repeat split; intros k r Hk; cbn [sample_database inquiries reviews newsletters] in Hk;
    apply lookup_singleton_Some in Hk as [<- <-]; reflexivity.
Defined.

Lemma rows_stay_keyed_by_id_witness :
  keyed_by_id sample_database
  /\ keyed_by_id
       (snd (create_inquiry engine_accepts sample_exn_str 1700000100 (JObj inquiry_body)
               sample_database))
  /\ keyed_by_id
       (snd (delete_review engine_accepts sample_exn_str 1 sample_database)).
Proof.
  split; [exact sample_database_keyed_by_id|].
  pose proof (rows_stay_keyed_by_id engine_accepts sample_exn_str sample_isoformat
                1700000100 1 (JObj inquiry_body) sample_database
                sample_database_keyed_by_id) as H.
  destruct H as (Hcreate & _ & _ & _ & _ & _ & _ & Hdelete & _).
  split; [exact Hcreate | exact Hdelete].
Defined.

Lemma fractional_rating_is_accepted_witness :
  Qle_bool 1 (9 # 2) = true
  /\ Qle_bool (9 # 2) 5 = true
  /\ in_range (JFloat (FNum (9 # 2)))
  /\ fst (submit_review engine_accepts sample_exn_str 1700000100
            (JObj (review_body (JFloat (FNum (9 # 2))))) sample_database)
     = Return (Response 201 (JObj [("message", JStr "Review submitted successfully")]))
  /\ one_to_five (JFloat (FNum (9 # 2))) = false.
Proof.
  split; [reflexivity|]. split; [reflexivity|].
  destruct (fractional_rating_is_accepted engine_accepts sample_exn_str sample_isoformat
              1700000100 1 (9 # 2) sample_database eq_refl eq_refl)
    as (Hrange & Hsubmit & _ & Hset).
  split; [exact Hrange|]. split; [|exact Hset].
  cbv zeta in Hsubmit. rewrite Hsubmit. reflexivity.
Defined.
